(** * Display settings of the dashboard: reconciliation, save and theme toggle

    A shallow embedding of

    - [src/components/dashboard/SettingsSection/DisplaySettings.tsx]
      ([loadPreferences], [initializeDefaultSettings], [handleSubmit]) and
    - [src/components/dashboard/universal/ThemeToggle.tsx] ([handleToggle]),

    together with the fragment of the ECMAScript runtime these handlers call
    ([String.prototype.trim], [JSON.parse], [JSON.stringify], property reads,
    truthiness, strict equality, object spread). *)

From Stdlib Require Import ZArith NArith List String Ascii Bool Lia.
From Stdlib Require Import Floats.SpecFloat.
Import ListNotations.

(* ===================================================================== *)
(** * The ECMAScript fragment                                             *)
(* ===================================================================== *)

Module JS.

Local Open Scope N_scope.

(** ** Strings

    A JavaScript string is a finite sequence of UTF-16 code units. *)

Definition jstring := list N.

(** A source literal (all literals of the two components are ASCII). *)
Definition lit (s : string) : jstring :=
  map N_of_ascii (list_ascii_of_string s).

Fixpoint str_eqb (a b : jstring) : bool :=
  match a, b with
  | [], [] => true
  | x :: a', y :: b' => (x =? y) && str_eqb a' b'
  | _, _ => false
  end.

(** [WhiteSpace] and [LineTerminator] code units, as [trim] strips them. *)
Definition is_white_space (c : N) : bool :=
  existsb (N.eqb c)
    [9; 10; 11; 12; 13; 32; 160; 5760; 8232; 8233; 8239; 8287; 12288; 65279]
  || ((8192 <=? c) && (c <=? 8202)).

Fixpoint trim_start (s : jstring) : jstring :=
  match s with
  | c :: r => if is_white_space c then trim_start r else s
  | [] => []
  end.

(** [String.prototype.trim]. *)
Definition trim (s : jstring) : jstring :=
  rev (trim_start (rev (trim_start s))).

(** ** Numbers

    A Number is an IEEE 754 binary64 value: [spec_float] at precision 53. *)

Definition prec : Z := 53.
Definition emax : Z := 1024.

Definition number := spec_float.

Definition num_eqb (x y : number) : bool := SFeqb x y.

Local Open Scope Z_scope.

(** The binary64 value nearest (ties to even) to [m * 10^e], for [0 <= m].
    For a negative exponent the quotient is taken with guard bits below
    the rounding position and a sticky bit for the remainder. *)
Definition of_decimal (neg : bool) (m e : Z) : number :=
  if m =? 0 then S754_zero neg
  else if 0 <=? e then
    binary_normalize prec emax (cond_Zopp neg (m * 10 ^ e)) 0 neg
  else
    let d := 10 ^ (- e) in
    let s := Z.max 0 (Z.log2 d - Z.log2 m + 56) in
    let q := (m * 2 ^ s) / d in
    let r := (m * 2 ^ s) mod d in
    let q' := 2 * q + (if r =? 0 then 0 else 1) in
    binary_normalize prec emax (cond_Zopp neg q') (- s - 1) neg.

(** Decimal digits of a non-negative integer, most significant first, as
    code units. *)
Fixpoint digits_aux (fuel : nat) (n : Z) (acc : list N) : list N :=
  match fuel with
  | O => acc
  | S fuel' =>
      let acc' := Z.to_N (48 + n mod 10) :: acc in
      if n <? 10 then acc' else digits_aux fuel' (n / 10) acc'
  end.

Definition digits (n : Z) : list N :=
  digits_aux (S (Z.to_nat (Z.log2 n))) n [].

Definition zeros (n : Z) : list N := repeat 48%N (Z.to_nat n).

(** [floor (log10 (num / den))] for positive [num] and [den]. *)
Definition floor_log10 (num den : Z) : Z :=
  let g := Z.of_nat (List.length (digits num)) - Z.of_nat (List.length (digits den)) in
  let reached :=
    if 0 <=? g then den * 10 ^ g <=? num else den <=? num * 10 ^ (- g) in
  if reached then g else g - 1.

(** The decimal [s * 10^(n-k)] with [k] digits that is nearest to
    [x = num / den] among those that round to [x], if there is one:
    the result is [(s, n)]. *)
Definition shortest_at (x : number) (num den n0 k : Z) : option (Z * Z) :=
  let p := n0 - k in
  let N := if 0 <=? p then num else num * 10 ^ (- p) in
  let D := if 0 <=? p then den * 10 ^ p else den in
  let s1 := N / D in
  let r := N mod D in
  let s2 := s1 + 1 in
  let ok1 := num_eqb (of_decimal false s1 p) x in
  let ok2 := num_eqb (of_decimal false s2 p) x in
  let upper := (D <? 2 * r) || ((D =? 2 * r) && Z.odd s1) in
  let up := if s2 =? 10 ^ k then (10 ^ (k - 1), n0 + 1) else (s2, n0) in
  match ok1, ok2 with
  | true, true => Some (if upper then up else (s1, n0))
  | true, false => Some (s1, n0)
  | false, true => Some up
  | false, false => None
  end.

Fixpoint shortest (fuel : nat) (x : number) (num den n0 k : Z) : Z * Z :=
  match fuel with
  | O => (num / den, n0)
  | S fuel' =>
      match shortest_at x num den n0 k with
      | Some sn => sn
      | None => shortest fuel' x num den n0 (k + 1)
      end
  end.

(** [Number::toString] in radix 10 for a finite positive value
    [m * 2^e]: the digits [s] and the position [n] of the decimal point
    with the fewest digits that read back as the same Number. *)
Definition positive_to_string (m : positive) (e : Z) : jstring :=
  let num := if 0 <=? e then Zpos m * 2 ^ e else Zpos m in
  let den := if 0 <=? e then 1 else 2 ^ (- e) in
  let n0 := floor_log10 num den + 1 in
  let '(s, n) := shortest 17 (S754_finite false m e) num den n0 1 in
  let ds := digits s in
  let k := Z.of_nat (List.length ds) in
  if (k <=? n) && (n <=? 21) then ds ++ zeros (n - k)
  else if (0 <? n) && (n <=? 21) then
    firstn (Z.to_nat n) ds ++ lit "." ++ skipn (Z.to_nat n) ds
  else if (-6 <? n) && (n <=? 0) then lit "0." ++ zeros (- n) ++ ds
  else
    let ex := lit (if 0 <=? n - 1 then "e+" else "e-") ++ digits (Z.abs (n - 1)) in
    match ds with
    | [d] => d :: ex
    | d :: rest => d :: lit "." ++ rest ++ ex
    | [] => ex
    end.

(** [Number::toString]. *)
Definition number_to_string (x : number) : jstring :=
  match x with
  | S754_zero _ => lit "0"
  | S754_nan => lit "NaN"
  | S754_infinity false => lit "Infinity"
  | S754_infinity true => lit "-Infinity"
  | S754_finite false m e => positive_to_string m e
  | S754_finite true m e => lit "-" ++ positive_to_string m e
  end.

(** ** Values

    The values [JSON.parse] can produce. An object is the list of its own
    properties in enumeration order. [undefined] is not a member: a
    property read returns an [option]. *)

#[warnings="-register-all"]
Inductive Value : Type :=
| VNull
| VBool (b : bool)
| VNumber (x : number)
| VString (s : jstring)
| VArray (xs : list Value)
| VObject (ps : list (jstring * Value)).

(** What a statement can throw. *)
Inductive Exn : Type :=
| SyntaxError
| TypeError
| Error (message : string)
| Rejected (operation : string).

Inductive completion (A : Type) : Type :=
| Normal (a : A)
| Abrupt (e : Exn).

Arguments Normal {A} a.
Arguments Abrupt {A} e.

(** [ToBoolean]. *)
Definition truthy (v : Value) : bool :=
  match v with
  | VNull => false
  | VBool b => b
  | VNumber (S754_zero _) => false
  | VNumber S754_nan => false
  | VNumber _ => true
  | VString [] => false
  | VString _ => true
  | VArray _ => true
  | VObject _ => true
  end.

(** [ToBoolean] of a possibly [undefined] value. *)
Definition truthy_opt (o : option Value) : bool :=
  match o with
  | Some v => truthy v
  | None => false
  end.

(** [a === b] where [a] was just produced by [JSON.parse]: an object or an
    array is a fresh allocation, identical to no other value. *)
Definition strict_eqb (a b : Value) : bool :=
  match a, b with
  | VNull, VNull => true
  | VBool x, VBool y => Bool.eqb x y
  | VNumber x, VNumber y => num_eqb x y
  | VString x, VString y => str_eqb x y
  | _, _ => false
  end.

(** [typeof v === 'boolean']. *)
Definition as_boolean (o : option Value) : option bool :=
  match o with
  | Some (VBool b) => Some b
  | _ => None
  end.

(** [typeof v === 'string']. *)
Definition as_string (o : option Value) : option jstring :=
  match o with
  | Some (VString s) => Some s
  | _ => None
  end.

(** *** Own properties of an ordinary object *)

Definition is_digit (c : N) : bool := ((48 <=? c) && (c <=? 57))%N.

(** The array index a property key denotes, if it is the canonical decimal
    of an integer below [2^32 - 1]. *)
Definition array_index (k : jstring) : option Z :=
  match k with
  | [] => None
  | c :: r =>
      let canonical := negb (c =? 48)%N || match r with [] => true | _ => false end in
      if forallb is_digit k && canonical && (Nat.leb (List.length k) 10) then
        let v := fold_left (fun a d => 10 * a + (Z.of_N d - 48)) k 0 in
        if v <? 4294967295 then Some v else None
      else None
  end.

Fixpoint lookup (k : jstring) (ps : list (jstring * Value)) : option Value :=
  match ps with
  | [] => None
  | (k', v) :: r => if str_eqb k k' then Some v else lookup k r
  end.

Fixpoint replace (k : jstring) (v : Value) (ps : list (jstring * Value)) :=
  match ps with
  | [] => []
  | (k', v') :: r =>
      if str_eqb k k' then (k', v) :: r else (k', v') :: replace k v r
  end.

Fixpoint insert_index (i : Z) (k : jstring) (v : Value)
    (ps : list (jstring * Value)) :=
  match ps with
  | [] => [(k, v)]
  | (k', v') :: r =>
      match array_index k' with
      | Some j => if j <? i then (k', v') :: insert_index i k v r else (k, v) :: ps
      | None => (k, v) :: ps
      end
  end.

(** [CreateDataProperty]: an existing key keeps its place; a new array
    index goes among the indices in ascending order, which come first; any
    other new key goes last. *)
Definition define (k : jstring) (v : Value) (ps : list (jstring * Value)) :=
  match lookup k ps with
  | Some _ => replace k v ps
  | None =>
      match array_index k with
      | Some i => insert_index i k v ps
      | None => ps ++ [(k, v)]
      end
  end.

(** The property read [v.k] for a key [k] that no prototype defines and that
    is neither an index nor ["length"] (the components read [theme],
    [fontSize], [colorBlindMode] and [reducedMotion] only): [undefined] on
    every value but an object that owns [k], a [TypeError] on [null]. *)
Definition get (v : Value) (k : jstring) : completion (option Value) :=
  match v with
  | VNull => Abrupt TypeError
  | VObject ps => Normal (lookup k ps)
  | _ => Normal None
  end.

Fixpoint indexed (i : Z) (xs : list Value) : list (jstring * Value) :=
  match xs with
  | [] => []
  | x :: r => (digits i, x) :: indexed (i + 1) r
  end.

(** The own enumerable properties copied by the spread [{...v}]. *)
Definition spread (v : Value) : list (jstring * Value) :=
  match v with
  | VObject ps => ps
  | VArray xs => indexed 0 xs
  | VString s => indexed 0 (map (fun c => VString [c]) s)
  | _ => []
  end.

(** ** [JSON.parse] *)

Local Open Scope N_scope.

Definition is_json_ws (c : N) : bool :=
  (c =? 9) || (c =? 10) || (c =? 13) || (c =? 32).

Fixpoint skip_ws (s : jstring) : jstring :=
  match s with
  | c :: r => if is_json_ws c then skip_ws r else s
  | [] => []
  end.

Definition hex_digit (c : N) : option N :=
  if (48 <=? c) && (c <=? 57) then Some (c - 48)
  else if (65 <=? c) && (c <=? 70) then Some (c - 55)
  else if (97 <=? c) && (c <=? 102) then Some (c - 87)
  else None.

Definition hex4 (a b c d : N) : option N :=
  match hex_digit a, hex_digit b, hex_digit c, hex_digit d with
  | Some x, Some y, Some z, Some w => Some (((x * 16 + y) * 16 + z) * 16 + w)
  | _, _, _, _ => None
  end.

(** The code unit of a single-character escape. *)
Definition escape (e : N) : option N :=
  if (e =? 34) || (e =? 92) || (e =? 47) then Some e
  else if e =? 98 then Some 8
  else if e =? 102 then Some 12
  else if e =? 110 then Some 10
  else if e =? 114 then Some 13
  else if e =? 116 then Some 9
  else None.

(** The characters of a string literal after its opening quote: the
    decoded string and the text after the closing quote. *)
Fixpoint parse_string (s acc : jstring) : option (jstring * jstring) :=
  match s with
  | [] => None
  | c :: r =>
      if c =? 34 then Some (rev acc, r)
      else if c <? 32 then None
      else if c =? 92 then
        match r with
        | [] => None
        | e :: r1 =>
            if e =? 117 then
              match r1 with
              | h1 :: h2 :: h3 :: h4 :: r2 =>
                  match hex4 h1 h2 h3 h4 with
                  | Some u => parse_string r2 (u :: acc)
                  | None => None
                  end
              | _ => None
              end
            else
              match escape e with
              | Some u => parse_string r1 (u :: acc)
              | None => None
              end
        end
      else parse_string r (c :: acc)
  end.

Fixpoint span_digits (s acc : jstring) : jstring * jstring :=
  match s with
  | c :: r => if is_digit c then span_digits r (c :: acc) else (rev acc, s)
  | [] => (rev acc, [])
  end.

Definition decimal_value (ds : jstring) : Z :=
  fold_left (fun a d => 10 * a + (Z.of_N d - 48))%Z ds 0%Z.

(** The text after the code unit [c], if the text starts with it. *)
Definition expect (c : N) (s : jstring) : option jstring :=
  match s with
  | x :: r => if x =? c then Some r else None
  | [] => None
  end.

(** A number literal: an optional minus sign; the integer part, a single
    zero or digits that start with a non-zero one; an optional fraction, a
    point and at least one digit; an optional exponent, [e] or [E], an
    optional sign and at least one digit. *)
Definition parse_number (s : jstring) : option (number * jstring) :=
  let '(neg, s1) :=
    match expect 45 s with
    | Some r => (true, r)
    | None => (false, s)
    end in
  let int_part :=
    match s1 with
    | c :: r =>
        if c =? 48 then Some ([c], r)
        else if is_digit c then Some (span_digits s1 [])
        else None
    | [] => None
    end in
  match int_part with
  | None => None
  | Some (ds, s2) =>
      let frac_part :=
        match expect 46 s2 with
        | Some r =>
            match span_digits r [] with
            | ([], _) => None
            | (fs, r') => Some (fs, r')
            end
        | None => Some ([], s2)
        end in
      match frac_part with
      | None => None
      | Some (fs, s3) =>
          let exp_part :=
            match s3 with
            | c :: r =>
                if (c =? 101) || (c =? 69) then
                  let '(eneg, r1) :=
                    match expect 45 r, expect 43 r with
                    | Some r', _ => (true, r')
                    | None, Some r' => (false, r')
                    | None, None => (false, r)
                    end in
                  match span_digits r1 [] with
                  | ([], _) => None
                  | (es, r') => Some (cond_Zopp eneg (decimal_value es), r')
                  end
                else Some (0%Z, s3)
            | [] => Some (0%Z, s3)
            end in
          match exp_part with
          | None => None
          | Some (e, s4) =>
              Some (of_decimal neg (decimal_value (ds ++ fs))
                      (e - Z.of_nat (List.length fs))%Z, s4)
          end
      end
  end.

Fixpoint strip_prefix (p s : jstring) : option jstring :=
  match p, s with
  | [], _ => Some s
  | a :: p', b :: s' => if a =? b then strip_prefix p' s' else None
  | _ :: _, [] => None
  end.

Inductive parsed (A : Type) : Type :=
| Parsed (a : A) (rest : jstring)
| Unexpected
| OutOfFuel.

Arguments Parsed {A} a rest.
Arguments Unexpected {A}.
Arguments OutOfFuel {A}.

(** [parse_value] reads one value after optional white space;
    [parse_elements] reads the elements of an array up to its bracket and
    [parse_members] the members of an object up to its brace, each from the
    start of an element or member. A repeated key keeps its first place and
    takes the last value. *)
Fixpoint parse_value (fuel : nat) (s : jstring) : parsed Value :=
  match fuel with
  | O => OutOfFuel
  | S fuel' =>
      match skip_ws s with
      | [] => Unexpected
      | c :: r =>
          if c =? 123 then
            match expect 125 (skip_ws r) with
            | Some r' => Parsed (VObject []) r'
            | None => parse_members fuel' [] r
            end
          else if c =? 91 then
            match expect 93 (skip_ws r) with
            | Some r' => Parsed (VArray []) r'
            | None => parse_elements fuel' [] r
            end
          else if c =? 34 then
            match parse_string r [] with
            | Some (str, r') => Parsed (VString str) r'
            | None => Unexpected
            end
          else
            match strip_prefix (lit "true") (c :: r),
                  strip_prefix (lit "false") (c :: r),
                  strip_prefix (lit "null") (c :: r) with
            | Some r', _, _ => Parsed (VBool true) r'
            | _, Some r', _ => Parsed (VBool false) r'
            | _, _, Some r' => Parsed VNull r'
            | None, None, None =>
                match parse_number (c :: r) with
                | Some (x, r') => Parsed (VNumber x) r'
                | None => Unexpected
                end
            end
      end
  end

with parse_elements (fuel : nat) (acc : list Value) (s : jstring) : parsed Value :=
  match fuel with
  | O => OutOfFuel
  | S fuel' =>
      match parse_value fuel' s with
      | Parsed v r =>
          match expect 44 (skip_ws r), expect 93 (skip_ws r) with
          | Some r', _ => parse_elements fuel' (v :: acc) r'
          | None, Some r' => Parsed (VArray (rev (v :: acc))) r'
          | None, None => Unexpected
          end
      | Unexpected => Unexpected
      | OutOfFuel => OutOfFuel
      end
  end

with parse_members (fuel : nat) (ps : list (jstring * Value)) (s : jstring)
    : parsed Value :=
  match fuel with
  | O => OutOfFuel
  | S fuel' =>
      match expect 34 (skip_ws s) with
      | Some r =>
          match parse_string r [] with
          | Some (k, r1) =>
              match expect 58 (skip_ws r1) with
              | Some r2 =>
                  match parse_value fuel' r2 with
                  | Parsed v r3 =>
                      match expect 44 (skip_ws r3), expect 125 (skip_ws r3) with
                      | Some r', _ => parse_members fuel' (define k v ps) r'
                      | None, Some r' => Parsed (VObject (define k v ps)) r'
                      | None, None => Unexpected
                      end
                  | Unexpected => Unexpected
                  | OutOfFuel => OutOfFuel
                  end
              | None => Unexpected
              end
          | None => Unexpected
          end
      | None => Unexpected
      end
  end.

(** [JSON.parse(text)] without a reviver: the value of a text that is one
    JSON value between optional white space, a [SyntaxError] otherwise. *)
Definition JSON_parse (text : jstring) : completion Value :=
  match parse_value (S (2 * List.length text)) text with
  | Parsed v rest =>
      match skip_ws rest with
      | [] => Normal v
      | _ :: _ => Abrupt SyntaxError
      end
  | Unexpected => Abrupt SyntaxError
  | OutOfFuel => Abrupt SyntaxError
  end.

(** A run of the parser on [s] that did not run out of fuel and, if it
    read a value, left less text than it was given. *)
Definition terminates {A} (p : parsed A) (s : jstring) : Prop :=
  p <> OutOfFuel
  /\ forall a r, p = Parsed a r -> (List.length r < List.length s)%nat.

(** ** [JSON.stringify] *)

Definition hex_char (d : N) : N := if d <? 10 then 48 + d else 87 + d.

(** The escape [\uXXXX] with lower-case digits. *)
Definition unicode_escape (c : N) : jstring :=
  [92; 117; hex_char (c / 4096 mod 16); hex_char (c / 256 mod 16);
   hex_char (c / 16 mod 16); hex_char (c mod 16)].

Definition is_lead (c : N) : bool := (55296 <=? c) && (c <=? 56319).
Definition is_trail (c : N) : bool := (56320 <=? c) && (c <=? 57343).

Definition quote_unit (c : N) : jstring :=
  if c =? 8 then lit "\b"
  else if c =? 9 then lit "\t"
  else if c =? 10 then lit "\n"
  else if c =? 12 then lit "\f"
  else if c =? 13 then lit "\r"
  else if c =? 34 then [92; 34]
  else if c =? 92 then [92; 92]
  else if c <? 32 then unicode_escape c
  else [c].

(** The body of [QuoteJSONString]: a surrogate pair is copied, a lone
    surrogate is escaped. *)
Fixpoint quote_body (s : jstring) : jstring :=
  match s with
  | [] => []
  | c :: r =>
      if is_lead c then
        match r with
        | c2 :: r2 =>
            if is_trail c2 then c :: c2 :: quote_body r2
            else unicode_escape c ++ quote_body r
        | [] => unicode_escape c
        end
      else if is_trail c then unicode_escape c ++ quote_body r
      else quote_unit c ++ quote_body r
  end.

Definition quote (s : jstring) : jstring := 34 :: quote_body s ++ [34].

(** [JSON.stringify(v)] without replacer or indentation. A Number that is
    not finite is written [null]. The function is total: an engine that
    runs out of stack on a value nested too deeply, and throws a
    [RangeError] instead of returning, is not modelled. *)
Fixpoint JSON_stringify (v : Value) : jstring :=
  match v with
  | VNull => lit "null"
  | VBool true => lit "true"
  | VBool false => lit "false"
  | VNumber (S754_finite _ _ _ as x) => number_to_string x
  | VNumber (S754_zero _) => lit "0"
  | VNumber _ => lit "null"
  | VString s => quote s
  | VArray xs =>
      let fix elements (xs : list Value) : jstring :=
        match xs with
        | [] => []
        | [x] => JSON_stringify x
        | x :: r => JSON_stringify x ++ 44 :: elements r
        end in
      91 :: elements xs ++ [93]
  | VObject ps =>
      let fix members (ps : list (jstring * Value)) : jstring :=
        match ps with
        | [] => []
        | [(k, x)] => quote k ++ 58 :: JSON_stringify x
        | (k, x) :: r => quote k ++ 58 :: JSON_stringify x ++ 44 :: members r
        end in
      123 :: members ps ++ [125]
  end.

End JS.


(** A JSON text written with ['] where the text has the quotation mark. *)
Definition json_lit (s : string) : JS.jstring :=
  map (fun c => if N.eqb c 39 then 34%N else c) (JS.lit s).

(* ===================================================================== *)
(** * Collaborators of the components                                     *)
(* ===================================================================== *)

(** ** [scripts/database/ThemeService]: the Local Preference Store *)

Module ThemeService.
Import JS.

Inductive Theme : Type := light | dark.

Inductive FontSize : Type := small | medium | large | extra_large.

Definition theme_string (t : Theme) : jstring :=
  match t with
  | light => lit "light"
  | dark => lit "dark"
  end.

Definition fontSize_string (f : FontSize) : jstring :=
  match f with
  | small => lit "small"
  | medium => lit "medium"
  | large => lit "large"
  | extra_large => lit "extra-large"
  end.

(** The stored record. [fontSize] is declared as one of the four sizes, yet
    the settings form stores whatever its [fontSize] state holds, and that
    state takes any parsed value from the profile: the field is a [Value]. *)
Record ThemeSettings : Type := {
  id : jstring;
  theme : Theme;
  fontSize : Value;
  colorBlindMode : bool;
  reducedMotion : bool;
  updatedAt : Z
}.

(** Modelled from the spec: [DEFAULT_THEME_SETTINGS] is declared in
    [scripts/database/ThemeService], which is not among the sources. The
    default value when absent is
    [{theme: dark, fontSize: medium, colorBlindMode: false, reducedMotion: false}];
    the record has the fixed identifier ["current"]. *)
Definition DEFAULT_THEME_SETTINGS : ThemeSettings := {|
  id := lit "current";
  theme := dark;
  fontSize := VString (fontSize_string medium);
  colorBlindMode := false;
  reducedMotion := false;
  updatedAt := 0
|}.

End ThemeService.

(** ** The world the handlers run in, and their effects *)

Module Runtime.
Import JS ThemeService.

(** The authenticated user record: its [id] and its other fields, a
    JavaScript object. *)
Record UserRecord : Type := {
  user_id : jstring;
  fields : list (jstring * Value)
}.

Inductive Collection : Type := USERS.

(** What a handler does that can be observed from outside, in order. *)
Inductive Event : Type :=
| console_error (message : string)
| toast_error (message : string)
| toast_success (message : string)
| saveThemeSettings_called (settings : ThemeSettings)
| updateFields_called (c : Collection) (record_id : jstring)
    (data : list (jstring * Value))
| themechange.

(** - [idb]: the single record of the Local Preference Store;
    - [current_user]: what [auth.getCurrentUser()] returns;
    - [put_fails], [update_fails]: whether a local write, a remote write,
      is rejected;
    - [clock]: what the next [Date.now()] returns;
    - [trace]: the events so far, oldest first. *)
Record World : Type := {
  idb : ThemeSettings;
  current_user : option UserRecord;
  put_fails : bool;
  update_fails : bool;
  clock : Z;
  trace : list Event
}.

Definition emit (e : Event) (w : World) : World := {|
  idb := idb w; current_user := current_user w; put_fails := put_fails w;
  update_fails := update_fails w; clock := clock w;
  trace := trace w ++ [e]
|}.

Definition set_idb (s : ThemeSettings) (w : World) : World := {|
  idb := s; current_user := current_user w; put_fails := put_fails w;
  update_fails := update_fails w; clock := clock w; trace := trace w
|}.

Definition set_current_user (u : option UserRecord) (w : World) : World := {|
  idb := idb w; current_user := u; put_fails := put_fails w;
  update_fails := update_fails w; clock := clock w; trace := trace w
|}.

(** The clock after a read of it. *)
Definition tick (w : World) : World := {|
  idb := idb w; current_user := current_user w; put_fails := put_fails w;
  update_fails := update_fails w; clock := clock w + 1; trace := trace w
|}.

Section Handlers.

(** The state cells of the component the handler belongs to. *)
Variable C : Type.

(** A handler runs to completion on the component state and the world;
    an [await] is a sequence point. *)
Definition M (A : Type) : Type := C * World -> completion A * (C * World).

Definition ret {A} (a : A) : M A := fun s => (Normal a, s).

Definition bind {A B} (m : M A) (k : A -> M B) : M B :=
  fun s =>
    match m s with
    | (Normal a, s') => k a s'
    | (Abrupt e, s') => (Abrupt e, s')
    end.

Definition throw {A} (e : Exn) : M A := fun s => (Abrupt e, s).

(** [try { body } catch (e) { handler }] *)
Definition try_catch {A} (body : M A) (handler : Exn -> M A) : M A :=
  fun s =>
    match body s with
    | (Normal a, s') => (Normal a, s')
    | (Abrupt e, s') => handler e s'
    end.

(** [try { body } finally { final }] *)
Definition try_finally {A} (body : M A) (final : M unit) : M A :=
  fun s =>
    match body s with
    | (r, s') =>
        match final s' with
        | (Normal _, s'') => (r, s'')
        | (Abrupt e, s'') => (Abrupt e, s'')
        end
    end.

Definition lift {A} (c : completion A) : M A := fun s => (c, s).

Definition modify (f : C -> C) : M unit :=
  fun s => (Normal tt, (f (fst s), snd s)).

Definition world : M World := fun s => (Normal (snd s), s).

Definition effect (f : World -> World) : M unit :=
  fun s => (Normal tt, (fst s, f (snd s))).

Definition log (e : Event) : M unit := effect (emit e).

(** Modelled from the spec: [ThemeService.getThemeSettings] is not among
    the sources. [read() -> ThemeSettings]; exactly one record exists in
    the store at any time. *)
Definition getThemeSettings : M ThemeSettings :=
  bind world (fun w => ret (idb w)).

(** Modelled from the spec: [ThemeService.saveThemeSettings] is not among
    the sources. [write(ThemeSettings) -> success|failure]; a write replaces
    the record wholesale, a failed one leaves it. *)
Definition saveThemeSettings (settings : ThemeSettings) : M unit :=
  bind (log (saveThemeSettings_called settings)) (fun _ =>
  bind world (fun w =>
  if put_fails w then throw (Rejected "saveThemeSettings")
  else effect (set_idb settings))).

(** [auth.getCurrentUser()]. *)
Definition getCurrentUser : M (option UserRecord) :=
  bind world (fun w => ret (current_user w)).

Definition merge (data : list (jstring * Value)) (u : UserRecord) : UserRecord := {|
  user_id := user_id u;
  fields := fold_left (fun ps kv => define (fst kv) (snd kv) ps) data (fields u)
|}.

(** Modelled from the spec: [Update.updateFields] is not among the sources.
    [updateFields(collectionName, userId, fieldMap) -> ok|error]; a write
    that succeeds sets the given fields of the user record, which is the
    one [getCurrentUser] returns; a failed one leaves it. *)
Definition updateFields (c : Collection) (record_id : jstring)
    (data : list (jstring * Value)) : M unit :=
  bind (log (updateFields_called c record_id data)) (fun _ =>
  bind world (fun w =>
  if update_fails w then throw (Rejected "updateFields")
  else
    match current_user w with
    | Some u =>
        if str_eqb (user_id u) record_id
        then effect (set_current_user (Some (merge data u)))
        else ret tt
    | None => ret tt
    end)).

(** [Date.now()]. Two reads that awaits separate do not return the same
    value: a read returns the clock, and the clock has moved on at the
    next read. By how much is not modelled; the clock moves by one unit. *)
Definition Date_now : M Z :=
  fun s => (Normal (clock (snd s)), (fst s, tick (snd s))).

End Handlers.

Arguments ret {C A} a.
Arguments bind {C A B} m k.
Arguments throw {C A} e.
Arguments try_catch {C A} body handler.
Arguments try_finally {C A} body final.
Arguments lift {C A} c.
Arguments modify {C} f.
Arguments world {C}.
Arguments effect {C} f.
Arguments log {C} e.
Arguments getThemeSettings {C}.
Arguments saveThemeSettings {C} settings.
Arguments getCurrentUser {C}.
Arguments updateFields {C} c record_id data.
Arguments Date_now {C}.

Declare Scope handler_scope.
Delimit Scope handler_scope with handler.

Notation "x <- m ;; k" := (bind m (fun x => k))
  (at level 61, m at next level, right associativity) : handler_scope.
Notation "m ;; k" := (bind m (fun _ => k))
  (at level 61, right associativity) : handler_scope.

End Runtime.


(* ===================================================================== *)
(** * [DisplaySettings.tsx]                                               *)
(* ===================================================================== *)

Module DisplaySettings.
Import JS ThemeService Runtime.
Local Open Scope handler_scope.

(** The [useState] cells of the component. A render sees a snapshot of
    them: the functions a render creates close over its snapshot and keep
    it, whatever the setters do later; a setter changes the cells for the
    renders to come.

    The handlers below are the three asynchronous functions of the
    component; no other handler runs between two steps of one. The effect
    of lines 120 to 134, which after a render sets [hasChanges] to whether a
    form cell differs from [currentSettings], is not one of them: applied
    to the cells a handler leaves, it computes the [hasChanges] the handler
    left. *)
Record State : Type := {
  currentSettings : option ThemeSettings;
  theme : Theme;
  fontSize : Value;
  colorBlindMode : bool;
  reducedMotion : bool;
  saving : bool;
  hasChanges : bool
}.

(** The cells at the first render (lines 14 to 24). *)
Definition first_render : State := {|
  currentSettings := None;
  theme := ThemeService.theme DEFAULT_THEME_SETTINGS;
  fontSize := ThemeService.fontSize DEFAULT_THEME_SETTINGS;
  colorBlindMode := ThemeService.colorBlindMode DEFAULT_THEME_SETTINGS;
  reducedMotion := ThemeService.reducedMotion DEFAULT_THEME_SETTINGS;
  saving := false;
  hasChanges := false
|}.

Definition setCurrentSettings (v : option ThemeSettings) : M State unit :=
  modify (fun c => {|
    currentSettings := v; theme := theme c; fontSize := fontSize c;
    colorBlindMode := colorBlindMode c; reducedMotion := reducedMotion c;
    saving := saving c; hasChanges := hasChanges c |}).

Definition setTheme (v : Theme) : M State unit :=
  modify (fun c => {|
    currentSettings := currentSettings c; theme := v; fontSize := fontSize c;
    colorBlindMode := colorBlindMode c; reducedMotion := reducedMotion c;
    saving := saving c; hasChanges := hasChanges c |}).

Definition setFontSize (v : Value) : M State unit :=
  modify (fun c => {|
    currentSettings := currentSettings c; theme := theme c; fontSize := v;
    colorBlindMode := colorBlindMode c; reducedMotion := reducedMotion c;
    saving := saving c; hasChanges := hasChanges c |}).

Definition setColorBlindMode (v : bool) : M State unit :=
  modify (fun c => {|
    currentSettings := currentSettings c; theme := theme c;
    fontSize := fontSize c; colorBlindMode := v;
    reducedMotion := reducedMotion c;
    saving := saving c; hasChanges := hasChanges c |}).

Definition setReducedMotion (v : bool) : M State unit :=
  modify (fun c => {|
    currentSettings := currentSettings c; theme := theme c;
    fontSize := fontSize c; colorBlindMode := colorBlindMode c;
    reducedMotion := v;
    saving := saving c; hasChanges := hasChanges c |}).

Definition setSaving (v : bool) : M State unit :=
  modify (fun c => {|
    currentSettings := currentSettings c; theme := theme c;
    fontSize := fontSize c; colorBlindMode := colorBlindMode c;
    reducedMotion := reducedMotion c;
    saving := v; hasChanges := hasChanges c |}).

Definition setHasChanges (v : bool) : M State unit :=
  modify (fun c => {|
    currentSettings := currentSettings c; theme := theme c;
    fontSize := fontSize c; colorBlindMode := colorBlindMode c;
    reducedMotion := reducedMotion c;
    saving := saving c; hasChanges := v |}).

(** [['light', 'dark'].includes(v)], with the member found. *)
Definition includes_theme (v : option Value) : option Theme :=
  match as_string v with
  | Some s =>
      if str_eqb s (theme_string light) then Some light
      else if str_eqb s (theme_string dark) then Some dark
      else None
  | None => None
  end.

(** [a !== b] for a possibly [undefined] parsed value [a]. *)
Definition differs (a : option Value) (b : Value) : bool :=
  match a with
  | Some v => negb (strict_eqb v b)
  | None => true
  end.

(** [v && typeof v === 'string' && v.trim() !== ''], with the string. *)
Definition nonblank_string (v : option Value) : option jstring :=
  match as_string v with
  | Some s =>
      if truthy (VString s) && negb (str_eqb (trim s) []) then Some s
      else None
  | None => None
  end.

(** [{ theme, fontSize }] *)
Definition displayPreferences_of (t : Theme) (f : Value) : Value :=
  VObject [(lit "theme", VString (theme_string t)); (lit "fontSize", f)].

(** [{ colorBlindMode, reducedMotion }] *)
Definition accessibilitySettings_of (cb rm : bool) : Value :=
  VObject [(lit "colorBlindMode", VBool cb); (lit "reducedMotion", VBool rm)].

(** Lines 137 to 161. [render] is the snapshot the function closes over:
    [theme], [fontSize], [colorBlindMode] and [reducedMotion] in its body
    are the constants of the render that created it. *)
Definition initializeDefaultSettings (render : State) (userId : jstring)
    (updateDisplayPrefs updateAccessibility : bool) : M State unit :=
  try_catch
    (let updateData := [] in
     let updateData :=
       if updateDisplayPrefs then
         define (lit "display_preferences")
           (VString (JSON_stringify
              (displayPreferences_of (theme render) (fontSize render))))
           updateData
       else updateData in
     let updateData :=
       if updateAccessibility then
         define (lit "accessibility_settings")
           (VString (JSON_stringify
              (accessibilitySettings_of (colorBlindMode render)
                 (reducedMotion render))))
           updateData
       else updateData in
     if Nat.ltb 0 (List.length updateData)
     then updateFields USERS userId updateData
     else ret tt)
    (fun error => log (console_error "Error initializing default settings:")).

(** Lines 51 to 77, "Check and handle display preferences": the value of
    [needsDisplayPrefsUpdate] afterwards. The [if] of line 57 and the
    [else if] of line 61 both test [includes]: when the theme is one of the
    two, the first test is whether it is truthy and differs from the stored
    one, and the second fails; when it is not, the first fails and the
    second holds. *)
Definition checkDisplayPreferences (themeSettings : ThemeSettings)
    (user : UserRecord) : M State bool :=
  match nonblank_string (lookup (lit "display_preferences") (fields user)) with
  | Some text =>
      try_catch
        (userPrefs <- lift (JSON_parse text) ;;
         theme_ <- lift (get userPrefs (lit "theme")) ;;
         needsDisplayPrefsUpdate <-
           match includes_theme theme_ with
           | Some t =>
               if truthy_opt theme_
                  && differs theme_ (VString (theme_string (ThemeService.theme themeSettings)))
               then setTheme t ;; setHasChanges true ;; ret false
               else ret false
           | None => ret true
           end ;;
         fontSize_ <- lift (get userPrefs (lit "fontSize")) ;;
         match fontSize_ with
         | Some v =>
             if truthy v && differs fontSize_ (ThemeService.fontSize themeSettings)
             then setFontSize v ;; setHasChanges true
             else ret tt
         | None => ret tt
         end ;;
         ret needsDisplayPrefsUpdate)
        (fun e =>
           log (console_error "Error parsing display preferences:") ;;
           ret true)
  | None => ret true
  end.

(** Lines 79 to 103, "Check and handle accessibility settings": the value
    of [needsAccessibilityUpdate] afterwards. *)
Definition checkAccessibilitySettings (themeSettings : ThemeSettings)
    (user : UserRecord) : M State bool :=
  match nonblank_string (lookup (lit "accessibility_settings") (fields user)) with
  | Some text =>
      try_catch
        (accessibilityPrefs <- lift (JSON_parse text) ;;
         colorBlindMode_ <- lift (get accessibilityPrefs (lit "colorBlindMode")) ;;
         match as_boolean colorBlindMode_ with
         | Some b =>
             if negb (Bool.eqb b (ThemeService.colorBlindMode themeSettings))
             then setColorBlindMode b ;; setHasChanges true
             else ret tt
         | None => ret tt
         end ;;
         reducedMotion_ <- lift (get accessibilityPrefs (lit "reducedMotion")) ;;
         match as_boolean reducedMotion_ with
         | Some b =>
             if negb (Bool.eqb b (ThemeService.reducedMotion themeSettings))
             then setReducedMotion b ;; setHasChanges true
             else ret tt
         | None => ret tt
         end ;;
         ret false)
        (fun e =>
           log (console_error "Error parsing accessibility settings:") ;;
           ret true)
  | None => ret true
  end.

(** Lines 28 to 114. [render] is the render that created the function, and
    with it the [initializeDefaultSettings] it calls. The effect that starts
    it has an empty dependency list (line 117): it is the effect of the
    first render and runs once, so [render] is [first_render]. *)
Definition loadPreferences (render : State) : M State unit :=
  try_catch
    (themeSettings <- getThemeSettings ;;
     setCurrentSettings (Some themeSettings) ;;
     setTheme (ThemeService.theme themeSettings) ;;
     setFontSize (ThemeService.fontSize themeSettings) ;;
     setColorBlindMode (ThemeService.colorBlindMode themeSettings) ;;
     setReducedMotion (ThemeService.reducedMotion themeSettings) ;;
     setHasChanges false ;;
     user <- getCurrentUser ;;
     match user with
     | Some user =>
         needsDisplayPrefsUpdate <- checkDisplayPreferences themeSettings user ;;
         needsAccessibilityUpdate <- checkAccessibilitySettings themeSettings user ;;
         if needsDisplayPrefsUpdate || needsAccessibilityUpdate
         then initializeDefaultSettings render (user_id user)
                needsDisplayPrefsUpdate needsAccessibilityUpdate
         else ret tt
     | None => ret tt
     end)
    (fun error =>
       log (console_error "Error loading preferences:") ;;
       log (toast_error "Failed to load display preferences")).

(** Lines 192 to 253. [render] is the render whose form was submitted. *)
Definition handleSubmit (render : State) : M State unit :=
  setSaving true ;;
  try_finally
    (try_catch
       (user <- getCurrentUser ;;
        match user with
        | None => throw (Error "User not authenticated")
        | Some user =>
            let displayPreferences :=
              displayPreferences_of (theme render) (fontSize render) in
            let accessibilitySettings :=
              accessibilitySettings_of (colorBlindMode render)
                (reducedMotion render) in
            now <- Date_now ;;
            saveThemeSettings {|
              id := lit "current";
              ThemeService.theme := theme render;
              ThemeService.fontSize := fontSize render;
              ThemeService.colorBlindMode := colorBlindMode render;
              ThemeService.reducedMotion := reducedMotion render;
              updatedAt := now |} ;;
            updateFields USERS (user_id user)
              [(lit "display_preferences",
                 VString (JSON_stringify displayPreferences));
               (lit "accessibility_settings",
                 VString (JSON_stringify accessibilitySettings))] ;;
            now' <- Date_now ;;
            setCurrentSettings (Some {|
              id := lit "current";
              ThemeService.theme := theme render;
              ThemeService.fontSize := fontSize render;
              ThemeService.colorBlindMode := colorBlindMode render;
              ThemeService.reducedMotion := reducedMotion render;
              updatedAt := now' |}) ;;
            setHasChanges false ;;
            log (toast_success "Display settings saved successfully!")
        end)
       (fun error =>
          log (console_error "Error saving display settings:") ;;
          log (toast_error "Failed to save display settings to your profile")))
    (setSaving false).

(** Mounting the component: the cells of the first render, then
    [loadPreferences] with the closure of that render. *)
Definition mount (w : World) : State * World :=
  snd (loadPreferences first_render (first_render, w)).

(** Submitting the form a render shows. *)
Definition save (c : State) (w : World) : State * World :=
  snd (handleSubmit c (c, w)).

(** ** The controls of the form *)

(** Lines 164 to 189. The theme control offers the two themes and the font
    size control the four sizes (lines 267 to 268 and 285 to 288); a
    checkbox gives a boolean. *)
Definition handleThemeChange (newTheme : Theme) : M State unit :=
  setTheme newTheme.

Definition handleFontSizeChange (newSize : FontSize) : M State unit :=
  setFontSize (VString (fontSize_string newSize)).

Definition handleColorBlindModeChange (enabled : bool) : M State unit :=
  setColorBlindMode enabled.

Definition handleReducedMotionChange (enabled : bool) : M State unit :=
  setReducedMotion enabled.

(** [a === b] for two values of any origin, where the values decide it:
    two arrays or objects are equal when they are the same allocation,
    which the values do not tell. *)
Definition strict_eq (a b : Value) : option bool :=
  match a, b with
  | VArray _, VArray _ | VArray _, VObject _
  | VObject _, VArray _ | VObject _, VObject _ => None
  | _, _ => Some (strict_eqb a b)
  end.

Definition theme_eqb (a b : Theme) : bool :=
  match a, b with
  | light, light | dark, dark => true
  | _, _ => false
  end.

(** Lines 123 to 133: the value given to [setHasChanges], where the values
    of the render decide it. The four comparisons are made before they are
    combined. *)
Definition changed (render : State) (current : ThemeSettings) : option bool :=
  let hasThemeChanged := negb (theme_eqb (theme render) (ThemeService.theme current)) in
  let hasColorBlindModeChanged :=
    negb (Bool.eqb (colorBlindMode render) (ThemeService.colorBlindMode current)) in
  let hasReducedMotionChanged :=
    negb (Bool.eqb (reducedMotion render) (ThemeService.reducedMotion current)) in
  match strict_eq (fontSize render) (ThemeService.fontSize current) with
  | Some same =>
      Some (hasThemeChanged || negb same
            || hasColorBlindModeChanged || hasReducedMotionChanged)
  | None =>
      if hasThemeChanged || hasColorBlindModeChanged || hasReducedMotionChanged
      then Some true else None
  end.

(** Lines 120 to 134, the effect that follows a render in which a form
    cell or [currentSettings] changed. *)
Definition checkForChanges (render : State) : option (M State unit) :=
  match currentSettings render with
  | None => Some (ret tt)
  | Some current =>
      match changed render current with
      | Some b => Some (setHasChanges b)
      | None => None
      end
  end.

(** The cells and the world after the effect of the render that shows
    [c]. *)
Definition rendered (c : State) (w : World) : option (State * World) :=
  match checkForChanges c with
  | Some effect_ => Some (snd (effect_ (c, w)))
  | None => None
  end.

(** A control is used on the form that shows [c]. *)
Definition edit (handler : M State unit) (c : State) (w : World) : State * World :=
  snd (handler (c, w)).

(** Line 347: whether the button that submits the form is disabled. *)
Definition submitDisabled (render : State) : bool :=
  saving render || negb (hasChanges render).

End DisplaySettings.


(* ===================================================================== *)
(** * [ThemeToggle.tsx]                                                   *)
(* ===================================================================== *)

(** ** [utils/themeUtils] *)

Module themeUtils.
Import JS ThemeService Runtime.
Local Open Scope handler_scope.

Definition flip (t : Theme) : Theme :=
  match t with
  | light => dark
  | dark => light
  end.

Definition with_theme (t : Theme) (s : ThemeSettings) : ThemeSettings := {|
  id := id s; theme := t; fontSize := fontSize s;
  colorBlindMode := colorBlindMode s; reducedMotion := reducedMotion s;
  updatedAt := updatedAt s
|}.

(** Modelled from the spec: [getCurrentTheme] is declared in
    [utils/themeUtils], which is not among the sources. It re-reads the
    theme the Local Preference Store holds. *)
Definition getCurrentTheme {C} : M C Theme :=
  w <- world ;; ret (theme (idb w)).

(** Modelled from the spec: [toggleTheme] is declared in [utils/themeUtils],
    which is not among the sources. It flips the theme in the Local
    Preference Store and fires the process-wide "theme changed" event, which
    has no payload and which a mounted Theme Toggle observes: [listener] is
    what the mounted component registered for it. *)
Definition toggleTheme {C} (listener : M C unit) : M C unit :=
  effect (fun w => set_idb (with_theme (flip (theme (idb w))) (idb w)) w) ;;
  log themechange ;;
  listener.

End themeUtils.

Module ThemeToggle.
Import JS ThemeService Runtime themeUtils.
Local Open Scope handler_scope.

(** The [useState] cells of the component. *)
Record State : Type := {
  theme : Theme;
  isLoading : bool
}.

Definition setTheme (v : Theme) : M State unit :=
  modify (fun c => {| theme := v; isLoading := isLoading c |}).

Definition setIsLoading (v : bool) : M State unit :=
  modify (fun c => {| theme := theme c; isLoading := v |}).

(** Lines 29 to 31, the listener for [themechange]. *)
Definition handleThemeChange : M State unit :=
  t <- getCurrentTheme ;; setTheme t.

(** [v && typeof v === 'string'], with the string. *)
Definition nonempty_string (v : option Value) : option jstring :=
  match as_string v with
  | Some s => if truthy (VString s) then Some s else None
  | None => None
  end.

(** Lines 40 to 84. *)
Definition handleToggle : M State unit :=
  setIsLoading true ;;
  try_finally
    (try_catch
       (toggleTheme handleThemeChange ;;
        newTheme <- getCurrentTheme ;;
        setTheme newTheme ;;
        user <- getCurrentUser ;;
        match user with
        | Some user =>
            try_catch
              (let displayPreferences :=
                 [(lit "theme", VString (theme_string newTheme));
                  (lit "fontSize", VString (lit "medium"))] in
               displayPreferences <-
                 match nonempty_string
                         (lookup (lit "display_preferences") (fields user)) with
                 | Some text =>
                     try_catch
                       (userPrefs <- lift (JSON_parse text) ;;
                        ret (define (lit "theme")
                               (VString (theme_string newTheme))
                               (spread userPrefs)))
                       (fun e =>
                          log (console_error "Error parsing display preferences:") ;;
                          ret displayPreferences)
                 | None => ret displayPreferences
                 end ;;
               updateFields USERS (user_id user)
                 [(lit "display_preferences",
                    VString (JSON_stringify (VObject displayPreferences)))])
              (fun error =>
                 log (console_error "Error updating user preferences:"))
        | None => ret tt
        end)
       (fun error => log (console_error "Error toggling theme:")))
    (setIsLoading false).

(** One click on the toggle. *)
Definition toggle (c : State) (w : World) : State * World :=
  snd (handleToggle (c, w)).

(** Lines 16 to 24, run when the component mounts. *)
Definition loadTheme : M State unit :=
  try_catch
    (settings <- getThemeSettings ;;
     setTheme (ThemeService.theme settings))
    (fun error => log (console_error "Error loading theme:")).

(** Lines 91 and 92: the theme the button says a click switches to. *)
Definition announced (render : State) : Theme :=
  match theme render with
  | light => dark
  | dark => light
  end.

End ThemeToggle.


(* ===================================================================== *)
(** * What the statements below observe                                   *)
(* ===================================================================== *)

Module Observe.
Import JS ThemeService Runtime.

(** The remote writes of a trace, oldest first: the record written to and
    the field map. *)
Fixpoint remote_writes (t : list Event) : list (jstring * list (jstring * Value)) :=
  match t with
  | [] => []
  | updateFields_called _ record_id data :: r => (record_id, data) :: remote_writes r
  | _ :: r => remote_writes r
  end.

(** Whether an event is the attempt of a local or of a remote write. *)
Definition is_write (e : Event) : bool :=
  match e with
  | saveThemeSettings_called _ | updateFields_called _ _ _ => true
  | _ => false
  end.

(** A world in which [user] is signed in and both stores accept writes. *)
Definition healthy (store : ThemeSettings) (user : UserRecord) (now : Z)
    (past : list Event) : World := {|
  idb := store; current_user := Some user;
  put_fails := false; update_fails := false;
  clock := now; trace := past
|}.

(** Sample data: a stored record with one of the four declared sizes, and
    a user with the given profile fields. *)
Definition stored (t : Theme) (f : FontSize) (cb rm : bool) : ThemeSettings := {|
  id := lit "current"; theme := t; fontSize := VString (fontSize_string f);
  colorBlindMode := cb; reducedMotion := rm; updatedAt := 0
|}.

Definition alice (profile : list (jstring * Value)) : UserRecord :=
  {| user_id := lit "alice"; fields := profile |}.

(** The value a handler returns from a state, if it completes normally. *)
Definition value {C A} (m : M C A) (s : C * World) : option A :=
  match fst (m s) with
  | Normal a => Some a
  | Abrupt _ => None
  end.

(** The cells once [loadPreferences] has copied the stored settings into
    them (lines 31 to 43). *)
Definition loaded (themeSettings : ThemeSettings) : DisplaySettings.State := {|
  DisplaySettings.currentSettings := Some themeSettings;
  DisplaySettings.theme := theme themeSettings;
  DisplaySettings.fontSize := fontSize themeSettings;
  DisplaySettings.colorBlindMode := colorBlindMode themeSettings;
  DisplaySettings.reducedMotion := reducedMotion themeSettings;
  DisplaySettings.saving := false;
  DisplaySettings.hasChanges := false
|}.

(** The flags at the end of reconciliation. *)
Definition needsDisplayPrefsUpdate (w : World) (user : UserRecord) : bool :=
  match value (DisplaySettings.checkDisplayPreferences (idb w) user)
          (loaded (idb w), w) with
  | Some b => b
  | None => false
  end.

Definition needsAccessibilityUpdate (w : World) (user : UserRecord) : bool :=
  match value (DisplaySettings.checkAccessibilitySettings (idb w) user)
          (loaded (idb w), w) with
  | Some b => b
  | None => false
  end.

(** The serialized settings of the first render, which are those of
    [DEFAULT_THEME_SETTINGS]. *)
Definition default_display_preferences : Value :=
  VString (JSON_stringify
    (DisplaySettings.displayPreferences_of
       (theme DEFAULT_THEME_SETTINGS) (fontSize DEFAULT_THEME_SETTINGS))).

Definition default_accessibility_settings : Value :=
  VString (JSON_stringify
    (DisplaySettings.accessibilitySettings_of
       (colorBlindMode DEFAULT_THEME_SETTINGS)
       (reducedMotion DEFAULT_THEME_SETTINGS))).

(** The field map that holds the default of each flagged field. *)
Definition seeded (display accessibility : bool) : list (jstring * Value) :=
  (if display then [(lit "display_preferences", default_display_preferences)] else [])
  ++ (if accessibility
      then [(lit "accessibility_settings", default_accessibility_settings)]
      else []).

(** The settings a form state holds. *)
Definition form (t : Theme) (f : Value) (cb rm : bool)
    (c : DisplaySettings.State) : DisplaySettings.State := {|
  DisplaySettings.currentSettings := DisplaySettings.currentSettings c;
  DisplaySettings.theme := t;
  DisplaySettings.fontSize := f;
  DisplaySettings.colorBlindMode := cb;
  DisplaySettings.reducedMotion := rm;
  DisplaySettings.saving := DisplaySettings.saving c;
  DisplaySettings.hasChanges := DisplaySettings.hasChanges c
|}.

(** The record [handleSubmit] writes for a render. *)
Definition record_of (c : DisplaySettings.State) (now : Z) : ThemeSettings := {|
  id := lit "current";
  theme := DisplaySettings.theme c;
  fontSize := DisplaySettings.fontSize c;
  colorBlindMode := DisplaySettings.colorBlindMode c;
  reducedMotion := DisplaySettings.reducedMotion c;
  updatedAt := now
|}.

(** The field map [handleSubmit] writes for a render. *)
Definition profile_of (c : DisplaySettings.State) : list (jstring * Value) :=
  [(lit "display_preferences",
     VString (JSON_stringify
       (DisplaySettings.displayPreferences_of
          (DisplaySettings.theme c) (DisplaySettings.fontSize c))));
   (lit "accessibility_settings",
     VString (JSON_stringify
       (DisplaySettings.accessibilitySettings_of
          (DisplaySettings.colorBlindMode c)
          (DisplaySettings.reducedMotion c))))].

End Observe.


(* ===================================================================== *)
(** * Closed forms of the handlers                                        *)
(* ===================================================================== *)

(** What [loadPreferences] computes, written as functions of the stored
    settings and of the two profile fields, and what [handleSubmit]
    computes, by cases on the user and on the two writes. [mount_run] and
    [save_run] below prove that the handlers compute exactly this. *)

Module Summary.
Import JS ThemeService Runtime Observe DisplaySettings.

(** [v.k] where it does not throw. *)
Definition prop (v : Value) (k : jstring) : option Value :=
  match v with
  | VObject ps => lookup k ps
  | _ => None
  end.

(** The value a check reads its properties from: the field is a non-blank
    string whose text parses to a value other than [null]. *)
Definition readable (field : option Value) : option Value :=
  match nonblank_string field with
  | Some text =>
      match JSON_parse text with
      | Normal VNull => None
      | Normal v => Some v
      | Abrupt _ => None
      end
  | None => None
  end.

(** Whether the [catch] clause of a check runs. *)
Definition caught (field : option Value) : bool :=
  match nonblank_string field with
  | Some text =>
      match JSON_parse text with
      | Normal VNull => true
      | Normal _ => false
      | Abrupt _ => true
      end
  | None => false
  end.

(** The theme, font size or boolean a check takes from the profile. *)
Definition new_theme (base : Theme) (v : option Value) : option Theme :=
  match includes_theme v with
  | Some t =>
      if truthy_opt v && differs v (VString (theme_string base))
      then Some t else None
  | None => None
  end.

Definition new_fontSize (base : Value) (v : option Value) : option Value :=
  match v with
  | Some x => if truthy x && differs v base then Some x else None
  | None => None
  end.

Definition new_boolean (base : bool) (v : option Value) : option bool :=
  match as_boolean v with
  | Some b => if negb (Bool.eqb b base) then Some b else None
  | None => None
  end.

Definition chosen {A} (new : option A) (old : A) : A :=
  match new with
  | Some a => a
  | None => old
  end.

Definition is_some {A} (o : option A) : bool :=
  match o with
  | Some _ => true
  | None => false
  end.

(** The cells after the display check, after the accessibility check. *)
Definition display_cells (ts : ThemeSettings) (v : Value) (c : State) : State :=
  let t := new_theme (ThemeService.theme ts) (prop v (lit "theme")) in
  let f := new_fontSize (ThemeService.fontSize ts) (prop v (lit "fontSize")) in
  {| currentSettings := currentSettings c;
     theme := chosen t (theme c);
     fontSize := chosen f (fontSize c);
     colorBlindMode := colorBlindMode c;
     reducedMotion := reducedMotion c;
     saving := saving c;
     hasChanges := is_some t || is_some f || hasChanges c |}.

Definition accessibility_cells (ts : ThemeSettings) (v : Value) (c : State) : State :=
  let cb := new_boolean (ThemeService.colorBlindMode ts)
              (prop v (lit "colorBlindMode")) in
  let rm := new_boolean (ThemeService.reducedMotion ts)
              (prop v (lit "reducedMotion")) in
  {| currentSettings := currentSettings c;
     theme := theme c;
     fontSize := fontSize c;
     colorBlindMode := chosen cb (colorBlindMode c);
     reducedMotion := chosen rm (reducedMotion c);
     saving := saving c;
     hasChanges := is_some cb || is_some rm || hasChanges c |}.

Definition display_flag (field : option Value) : bool :=
  match readable field with
  | Some v => negb (is_some (includes_theme (prop v (lit "theme"))))
  | None => true
  end.

Definition accessibility_flag (field : option Value) : bool :=
  match readable field with
  | Some _ => false
  | None => true
  end.

Definition display_part (ts : ThemeSettings) (field : option Value)
    : option Theme * option Value :=
  match readable field with
  | Some v => (new_theme (ThemeService.theme ts) (prop v (lit "theme")),
               new_fontSize (ThemeService.fontSize ts) (prop v (lit "fontSize")))
  | None => (None, None)
  end.

Definition accessibility_part (ts : ThemeSettings) (field : option Value)
    : option bool * option bool :=
  match readable field with
  | Some v =>
      (new_boolean (ThemeService.colorBlindMode ts) (prop v (lit "colorBlindMode")),
       new_boolean (ThemeService.reducedMotion ts) (prop v (lit "reducedMotion")))
  | None => (None, None)
  end.

(** The cells at the end of [loadPreferences] for a signed-in user. *)
Definition reconciled (ts : ThemeSettings) (display accessibility : option Value)
    : State :=
  let d := display_part ts display in
  let a := accessibility_part ts accessibility in
  {| currentSettings := Some ts;
     theme := chosen (fst d) (ThemeService.theme ts);
     fontSize := chosen (snd d) (ThemeService.fontSize ts);
     colorBlindMode := chosen (fst a) (ThemeService.colorBlindMode ts);
     reducedMotion := chosen (snd a) (ThemeService.reducedMotion ts);
     saving := false;
     hasChanges := is_some (fst d) || is_some (snd d)
                   || is_some (fst a) || is_some (snd a) |}.

Definition emit_if (b : bool) (e : Event) (w : World) : World :=
  if b then emit e w else w.

(** The world after [initializeDefaultSettings] has sent [data]. *)
Definition written_back (u : UserRecord) (data : list (jstring * Value))
    (w : World) : World :=
  let w' := emit (updateFields_called USERS (user_id u) data) w in
  if update_fails w
  then emit (console_error "Error initializing default settings:") w'
  else set_current_user (Some (merge data u)) w'.

Definition mounted (w : World) : State * World :=
  match current_user w with
  | None => (loaded (idb w), w)
  | Some u =>
      let display := lookup (lit "display_preferences") (fields u) in
      let accessibility := lookup (lit "accessibility_settings") (fields u) in
      let w1 :=
        emit_if (caught accessibility)
          (console_error "Error parsing accessibility settings:")
          (emit_if (caught display)
             (console_error "Error parsing display preferences:") w) in
      (reconciled (idb w) display accessibility,
       if display_flag display || accessibility_flag accessibility
       then written_back u
              (seeded (display_flag display) (accessibility_flag accessibility)) w1
       else w1)
  end.

(** What [handleSubmit] computes for the render [c]. *)

Definition failure_notice : list Event :=
  [console_error "Error saving display settings:";
   toast_error "Failed to save display settings to your profile"].

Definition idle (c : State) : State := {|
  currentSettings := currentSettings c; theme := theme c; fontSize := fontSize c;
  colorBlindMode := colorBlindMode c; reducedMotion := reducedMotion c;
  saving := false; hasChanges := hasChanges c
|}.

Definition extend (new : list Event) (w : World) : World := {|
  idb := idb w; current_user := current_user w; put_fails := put_fails w;
  update_fails := update_fails w; clock := clock w; trace := trace w ++ new
|}.

Definition saved (c : State) (w : World) : State * World :=
  match current_user w with
  | None => (idle c, extend failure_notice w)
  | Some u =>
      let r := record_of c (clock w) in
      let local := saveThemeSettings_called r in
      let remote := updateFields_called USERS (user_id u) (profile_of c) in
      if put_fails w then (idle c, extend (local :: failure_notice) (tick w))
      else if update_fails w
      then (idle c,
            extend (local :: remote :: failure_notice) (set_idb r (tick w)))
      else
        ({| currentSettings := Some (record_of c (clock (tick w)));
            theme := theme c; fontSize := fontSize c;
            colorBlindMode := colorBlindMode c; reducedMotion := reducedMotion c;
            saving := false; hasChanges := false |},
         extend [local; remote; toast_success "Display settings saved successfully!"]
           (set_current_user (Some (merge (profile_of c) u))
              (set_idb r (tick (tick w)))))
  end.

(** What [handleToggle] computes. *)

(** The object a signed-in toggle serializes: the parsed field with the new
    theme, or the new theme with the medium size. *)
Definition toggled_preferences (newTheme : Theme) (field : option Value)
    : list (jstring * Value) :=
  let fresh := [(lit "theme", VString (theme_string newTheme));
                (lit "fontSize", VString (lit "medium"))] in
  match ThemeToggle.nonempty_string field with
  | Some text =>
      match JSON_parse text with
      | Normal userPrefs =>
          define (lit "theme") (VString (theme_string newTheme)) (spread userPrefs)
      | Abrupt _ => fresh
      end
  | None => fresh
  end.

(** Whether the inner [catch] of [handleToggle] runs. *)
Definition toggle_caught (field : option Value) : bool :=
  match ThemeToggle.nonempty_string field with
  | Some text =>
      match JSON_parse text with
      | Normal _ => false
      | Abrupt _ => true
      end
  | None => false
  end.

Definition toggled (c : ThemeToggle.State) (w : World)
    : ThemeToggle.State * World :=
  let newTheme := themeUtils.flip (ThemeService.theme (idb w)) in
  let w1 := extend [themechange]
              (set_idb (themeUtils.with_theme newTheme (idb w)) w) in
  let c1 := {| ThemeToggle.theme := newTheme; ThemeToggle.isLoading := false |} in
  match current_user w with
  | None => (c1, w1)
  | Some u =>
      let field := lookup (lit "display_preferences") (fields u) in
      let data := [(lit "display_preferences",
                    VString (JSON_stringify
                      (VObject (toggled_preferences newTheme field))))] in
      let w2 := emit (updateFields_called USERS (user_id u) data)
                  (emit_if (toggle_caught field)
                     (console_error "Error parsing display preferences:") w1) in
      (c1,
       if update_fails w
       then emit (console_error "Error updating user preferences:") w2
       else set_current_user (Some (merge data u)) w2)
  end.

(** The field map a signed-in click sends (lines 71 to 73). *)
Definition toggle_data (newTheme : Theme) (u : UserRecord) : list (jstring * Value) :=
  [(lit "display_preferences",
    VString (JSON_stringify
      (VObject (toggled_preferences newTheme
                  (lookup (lit "display_preferences") (fields u))))))].

(** Whether a value is a string or a number. The font size control takes
    the [fontSize] cell as its [value] (line 281), which renders for
    either, whether or not one of its options has that value. *)
Definition string_or_number (v : Value) : bool :=
  match v with
  | VString _ | VNumber _ => true
  | _ => false
  end.

(** Whether [{...v}] has no property: [v] is [null], a boolean or a
    number. *)
Definition primitive (v : Value) : bool :=
  match v with
  | VNull | VBool _ | VNumber _ => true
  | _ => false
  end.

End Summary.


(* ===================================================================== *)
(** * Three sentences of the specification, read literally                *)
(* ===================================================================== *)

Module Literal.
Import JS ThemeService Runtime Observe DisplaySettings.

(** Section 4.3, step 6: what reconciliation writes back for a field is
    the serialization of the working state at the end of the run. *)
Definition writes_back_working_state (w : World) : Prop :=
  let final := mount w in
  forall record_id data,
    In (record_id, data) (remote_writes (trace (snd final))) ->
    (forall v, lookup (lit "display_preferences") data = Some v ->
       v = VString (JSON_stringify
             (displayPreferences_of (theme (fst final)) (fontSize (fst final)))))
    /\ (forall v, lookup (lit "accessibility_settings") data = Some v ->
       v = VString (JSON_stringify
             (accessibilitySettings_of (colorBlindMode (fst final))
                (reducedMotion (fst final))))).

(** Section 7: a save whose local or remote write fails leaves
    [currentSettings], [hasChanges], the stored record and the profile as
    they were. *)
Definition failed_save_leaves_all (c : State) (w : World) : Prop :=
  put_fails w = true \/ update_fails w = true ->
  let final := save c w in
  currentSettings (fst final) = currentSettings c
  /\ hasChanges (fst final) = hasChanges c
  /\ idb (snd final) = idb w
  /\ current_user (snd final) = current_user w.

(** Section 4.3, step 4: any [fontSize] a parseable field has that differs
    from the stored one becomes the working [fontSize] and marks unsaved
    changes. *)
Definition applies_any_present_fontSize (w : World) : Prop :=
  forall u text v x,
    current_user w = Some u ->
    nonblank_string (lookup (lit "display_preferences") (fields u)) = Some text ->
    JSON_parse text = Normal v ->
    get v (lit "fontSize") = Normal (Some x) ->
    differs (Some x) (ThemeService.fontSize (idb w)) = true ->
    fontSize (fst (mount w)) = x /\ hasChanges (fst (mount w)) = true.

End Literal.


(* ===================================================================== *)
(** * Facts about the ECMAScript fragment                                 *)
(* ===================================================================== *)

Module JSFacts.
Import JS.
Local Open Scope N_scope.

(** ** String equality *)

Lemma str_eqb_refl (a : jstring) : str_eqb a a = true.
Proof.
  induction a as [|x a IH]; simpl; [reflexivity|].
  now rewrite N.eqb_refl, IH.
Qed.

Lemma str_eqb_eq (a b : jstring) : str_eqb a b = true <-> a = b.
Proof.
  split; [|intros ->; apply str_eqb_refl].
  revert b; induction a as [|x a IH]; intros [|y b]; simpl; try discriminate; auto.
  intros H. apply andb_true_iff in H as [Hx Hr]. apply N.eqb_eq in Hx.
  f_equal; auto.
Qed.

Lemma strict_eqb_string s b : strict_eqb (VString s) b = true <-> b = VString s.
Proof.
  destruct b; simpl; split; try discriminate.
  - intros H. apply str_eqb_eq in H. congruence.
  - intros H. inversion H. apply str_eqb_refl.
Qed.

(** ** Own properties *)

Lemma lookup_replace_same k v ps x :
  lookup k ps = Some x -> lookup k (replace k v ps) = Some v.
Proof.
  induction ps as [|[k' v'] r IH]; simpl; [discriminate|].
  destruct (str_eqb k k') eqn:E; simpl; rewrite E; auto.
Qed.

Lemma lookup_replace_other k k' v ps :
  str_eqb k k' = false -> lookup k (replace k' v ps) = lookup k ps.
Proof.
  intros Hne. induction ps as [|[k2 v2] r IH]; simpl; [reflexivity|].
  destruct (str_eqb k' k2) eqn:E; simpl.
  - apply str_eqb_eq in E. subst. now rewrite Hne.
  - now rewrite IH.
Qed.

Lemma lookup_insert_index_same i k v ps :
  lookup k ps = None -> lookup k (insert_index i k v ps) = Some v.
Proof.
  induction ps as [|[k' v'] r IH]; simpl.
  - now rewrite str_eqb_refl.
  - destruct (str_eqb k k') eqn:E; [discriminate|]. intros H.
    destruct (array_index k') as [j|]; [destruct (j <? i)%Z|]; simpl;
      rewrite ?E, ?str_eqb_refl; auto.
Qed.

Lemma lookup_insert_index_other i k k' v ps :
  str_eqb k k' = false -> lookup k (insert_index i k' v ps) = lookup k ps.
Proof.
  intros Hne. induction ps as [|[k2 v2] r IH]; simpl.
  - now rewrite Hne.
  - destruct (array_index k2) as [j|]; [destruct (j <? i)%Z|]; simpl;
      rewrite ?Hne, ?IH; auto.
Qed.

Lemma lookup_app_same k v ps :
  lookup k ps = None -> lookup k (ps ++ [(k, v)]) = Some v.
Proof.
  induction ps as [|[k2 v2] r IH]; simpl.
  - now rewrite str_eqb_refl.
  - destruct (str_eqb k k2); [discriminate|auto].
Qed.

Lemma lookup_app_other k k' v ps :
  str_eqb k k' = false -> lookup k (ps ++ [(k', v)]) = lookup k ps.
Proof.
  intros Hne. induction ps as [|[k2 v2] r IH]; simpl.
  - now rewrite Hne.
  - now rewrite IH.
Qed.

(** A property that was just defined reads back; the others are as before. *)
Lemma lookup_define_same k v ps : lookup k (define k v ps) = Some v.
Proof.
  unfold define. destruct (lookup k ps) eqn:E.
  - eapply lookup_replace_same; eauto.
  - destruct (array_index k).
    + now apply lookup_insert_index_same.
    + now apply lookup_app_same.
Qed.

Lemma lookup_define_other k k' v ps :
  str_eqb k k' = false -> lookup k (define k' v ps) = lookup k ps.
Proof.
  intros Hne. unfold define. destruct (lookup k' ps).
  - now apply lookup_replace_other.
  - destruct (array_index k').
    + now apply lookup_insert_index_other.
    + now apply lookup_app_other.
Qed.

(** ** The parser and the printer on sample texts *)

Example parse_display_preferences :
  JSON_parse (json_lit "{'theme':'light','fontSize':'medium'}") =
  Normal (VObject [(lit "theme", VString (lit "light"));
                   (lit "fontSize", VString (lit "medium"))]).
Proof. vm_compute. reflexivity. Qed.

Example parse_repeated_and_index_keys :
  JSON_parse (json_lit " {'b':true, '10':null, 'b':false, '2':[ ] } ") =
  Normal (VObject [(lit "2", VArray []); (lit "10", VNull);
                   (lit "b", VBool false)]).
Proof. vm_compute. reflexivity. Qed.

Example parse_rejects :
  JSON_parse (lit "") = Abrupt SyntaxError
  /\ JSON_parse (json_lit "{'theme':'light',}") = Abrupt SyntaxError
  /\ JSON_parse (json_lit "{theme:'light'}") = Abrupt SyntaxError
  /\ JSON_parse (lit "01") = Abrupt SyntaxError
  /\ JSON_parse (lit "[1 2]") = Abrupt SyntaxError.
Proof. vm_compute. repeat split. Qed.

Example stringify_numbers :
  match JSON_parse (lit "[100, 1.50, 0.1, 1e21, 1E-7, -0, 123456789012345678901234567890]") with
  | Normal v => JSON_stringify v
  | Abrupt _ => []
  end = lit "[100,1.5,0.1,1e+21,1e-7,0,1.2345678901234568e+29]".
Proof. vm_compute. reflexivity. Qed.

Example stringify_escapes :
  match JSON_parse (json_lit "'A\n\u001f\/'") with
  | Normal v => JSON_stringify v
  | Abrupt _ => []
  end = json_lit "'A\n\u001f/'".
Proof. vm_compute. reflexivity. Qed.

Example trim_blank : trim [32; 9; 160; 10; 65279] = [].
Proof. reflexivity. Qed.

Lemma get_prop v k o :
  get v k = Normal o -> Summary.prop v k = o /\ v <> VNull.
Proof. destruct v; simpl; intros H; inversion H; split; congruence. Qed.

End JSFacts.


(** ** The parser never runs out of fuel *)

Module ParserFacts.
Import JS.
Local Open Scope N_scope.

Lemma skip_ws_length s : (List.length (skip_ws s) <= List.length s)%nat.
Proof.
  induction s as [|c r IH]; simpl; [lia|].
  destruct (is_json_ws c); simpl; lia.
Qed.

Lemma parse_string_bounded n s acc k r :
  (List.length s <= n)%nat ->
  parse_string s acc = Some (k, r) -> (List.length r < List.length s)%nat.
Proof.
  revert s acc. induction n as [|n IH]; intros s acc Hn.
  { destruct s; [discriminate|simpl in Hn; lia]. }
  destruct s as [|c s]; simpl; [discriminate|]. simpl in Hn.
  destruct (c =? 34).
  { intros H; inversion H; subst. lia. }
  destruct (c <? 32); [discriminate|].
  destruct (c =? 92).
  - destruct s as [|e s1]; [discriminate|].
    destruct (e =? 117).
    + destruct s1 as [|h1 [|h2 [|h3 [|h4 r2]]]]; try discriminate.
      destruct (hex4 h1 h2 h3 h4); [|discriminate].
      intros H. apply IH in H; simpl in *; lia.
    + destruct (escape e); [|discriminate].
      intros H. apply IH in H; simpl in *; lia.
  - intros H. apply IH in H; simpl in *; lia.
Qed.

Lemma parse_string_length s acc k r :
  parse_string s acc = Some (k, r) -> (List.length r < List.length s)%nat.
Proof. apply parse_string_bounded with (n := List.length s). lia. Qed.

Lemma strip_prefix_length p s r :
  strip_prefix p s = Some r -> (List.length r + List.length p = List.length s)%nat.
Proof.
  revert s. induction p as [|a p IH]; intros [|b s]; simpl; try discriminate.
  - intros H; inversion H; reflexivity.
  - intros H; inversion H; simpl; lia.
  - destruct (a =? b); [|discriminate]. intros H. apply IH in H. lia.
Qed.

Lemma span_digits_length s acc : (List.length (snd (span_digits s acc)) <= List.length s)%nat.
Proof.
  revert acc. induction s as [|c r IH]; intros acc; simpl; [lia|].
  destruct (is_digit c); simpl; [specialize (IH (c :: acc)); lia|lia].
Qed.

Lemma span_digits_rest s acc ds r :
  span_digits s acc = (ds, r) -> (List.length r <= List.length s)%nat.
Proof. intros H. pose proof (span_digits_length s acc) as L. now rewrite H in L. Qed.

Lemma expect_length c s r : expect c s = Some r -> List.length s = S (List.length r).
Proof.
  destruct s as [|x s]; simpl; [discriminate|].
  destruct (x =? c); [|discriminate]. intros H; inversion H; reflexivity.
Qed.

Lemma parse_number_length s x r :
  parse_number s = Some (x, r) -> (List.length r < List.length s)%nat.
Proof.
  unfold parse_number.
  destruct (match expect 45 s with Some r0 => (true, r0) | None => (false, s) end)
    as [neg s1] eqn:Esign.
  assert (Hs : (List.length s1 <= List.length s)%nat).
  { destruct (expect 45 s) as [r0|] eqn:E; inversion Esign; subst; [|lia].
    apply expect_length in E. lia. }
  destruct s1 as [|c r1]; [discriminate|].
  destruct (if c =? 48 then Some ([c], r1)
            else if is_digit c then Some (span_digits (c :: r1) []) else None)
    as [[ds s2]|] eqn:Eint; [|discriminate].
  assert (Hint : (List.length s2 < List.length (c :: r1))%nat).
  { destruct (c =? 48).
    - inversion Eint; subst; simpl; lia.
    - destruct (is_digit c) eqn:Hd; [|discriminate].
      simpl in Eint. rewrite Hd in Eint. inversion Eint as [E].
      apply span_digits_rest in E. simpl; lia. }
  destruct (match expect 46 s2 with
            | Some r0 => match span_digits r0 [] with
                         | ([], _) => None
                         | (fs, r') => Some (fs, r')
                         end
            | None => Some ([], s2)
            end) as [[fs s3]|] eqn:Efrac; [|discriminate].
  assert (Hfrac : (List.length s3 <= List.length s2)%nat).
  { destruct (expect 46 s2) as [r0|] eqn:E.
    - apply expect_length in E.
      destruct (span_digits r0 []) as [[|f fs'] r'] eqn:E'; [discriminate|].
      inversion Efrac; subst. apply span_digits_rest in E'. lia.
    - inversion Efrac; subst; lia. }
  destruct (match s3 with
            | [] => Some (0%Z, s3)
            | c0 :: r0 => _
            end) as [[e s4]|] eqn:Eexp; [|discriminate].
  assert (Hexp : (List.length s4 <= List.length s3)%nat).
  { destruct s3 as [|c0 r0]; [inversion Eexp; subst; lia|].
    destruct ((c0 =? 101) || (c0 =? 69)); [|inversion Eexp; subst; lia].
    destruct (match expect 45 r0, expect 43 r0 with
              | Some r', _ => (true, r')
              | None, Some r' => (false, r')
              | None, None => (false, r0)
              end) as [eneg r2] eqn:Esg.
    assert (Hsg : (List.length r2 <= List.length r0)%nat).
    { destruct (expect 45 r0) as [r'|] eqn:E1.
      - inversion Esg; subst. apply expect_length in E1. lia.
      - destruct (expect 43 r0) as [r'|] eqn:E2; inversion Esg; subst; [|lia].
        apply expect_length in E2. lia. }
    destruct (span_digits r2 []) as [[|f es] r'] eqn:E; [discriminate|].
    inversion Eexp; subst. apply span_digits_rest in E. simpl; lia. }
  intros H; inversion H; subst. simpl in *. lia.
Qed.

Lemma parse_fuel fuel :
  (forall s, (2 * List.length s < fuel)%nat -> terminates (parse_value fuel s) s)
  /\ (forall acc s, (2 * List.length s + 1 < fuel)%nat ->
        terminates (parse_elements fuel acc s) s)
  /\ (forall ps s, (2 * List.length s + 1 < fuel)%nat ->
        terminates (parse_members fuel ps s) s).
Proof.
  induction fuel as [|fuel (IHv & IHe & IHm)].
  { repeat split; intros; lia. }
  split; [|split].
  - intros s Hf. cbn [parse_value].
    pose proof (skip_ws_length s) as Hws.
    destruct (skip_ws s) as [|c r]; [split; [discriminate|discriminate]|].
    simpl in Hws.
    destruct (c =? 123).
    { pose proof (skip_ws_length r) as Hr.
      destruct (expect 125 (skip_ws r)) as [r'|] eqn:E.
      - apply expect_length in E. split; [discriminate|].
        intros a r0 H; inversion H; subst. lia.
      - destruct (IHm [] r) as [H1 H2]; [lia|]. split; [exact H1|].
        intros a r0 H. apply H2 in H. lia. }
    destruct (c =? 91).
    { pose proof (skip_ws_length r) as Hr.
      destruct (expect 93 (skip_ws r)) as [r'|] eqn:E.
      - apply expect_length in E. split; [discriminate|].
        intros a r0 H; inversion H; subst. lia.
      - destruct (IHe [] r) as [H1 H2]; [lia|]. split; [exact H1|].
        intros a r0 H. apply H2 in H. lia. }
    destruct (c =? 34).
    { destruct (parse_string r []) as [[str r']|] eqn:E; [|split; discriminate].
      apply parse_string_length in E. split; [discriminate|].
      intros a r0 H; inversion H; subst. lia. }
    destruct (strip_prefix (lit "true") (c :: r)) as [r'|] eqn:E1.
    { apply strip_prefix_length in E1. simpl in E1. split; [discriminate|].
      intros a r0 H; inversion H; subst. lia. }
    destruct (strip_prefix (lit "false") (c :: r)) as [r'|] eqn:E2.
    { apply strip_prefix_length in E2. simpl in E2. split; [discriminate|].
      intros a r0 H; inversion H; subst. lia. }
    destruct (strip_prefix (lit "null") (c :: r)) as [r'|] eqn:E3.
    { apply strip_prefix_length in E3. simpl in E3. split; [discriminate|].
      intros a r0 H; inversion H; subst. lia. }
    destruct (parse_number (c :: r)) as [[x r']|] eqn:E; [|split; discriminate].
    apply parse_number_length in E. simpl in E. split; [discriminate|].
    intros a r0 H; inversion H; subst. lia.
  - intros acc s Hf. cbn [parse_elements].
    destruct (IHv s) as [H1 H2]; [lia|].
    destruct (parse_value fuel s) as [v r| |]; [|split; discriminate|congruence].
    specialize (H2 _ _ eq_refl).
    pose proof (skip_ws_length r) as Hr.
    destruct (expect 44 (skip_ws r)) as [r'|] eqn:E.
    { apply expect_length in E.
      destruct (IHe (v :: acc) r') as [H3 H4]; [lia|]. split; [exact H3|].
      intros a r0 H. apply H4 in H. lia. }
    destruct (expect 93 (skip_ws r)) as [r'|] eqn:E'; [|split; discriminate].
    apply expect_length in E'. split; [discriminate|].
    intros a r0 H; inversion H; subst. lia.
  - intros ps s Hf. cbn [parse_members].
    pose proof (skip_ws_length s) as Hws.
    destruct (expect 34 (skip_ws s)) as [r|] eqn:E; [|split; discriminate].
    apply expect_length in E.
    destruct (parse_string r []) as [[k r1]|] eqn:Es; [|split; discriminate].
    apply parse_string_length in Es.
    pose proof (skip_ws_length r1) as Hr1.
    destruct (expect 58 (skip_ws r1)) as [r2|] eqn:Ec; [|split; discriminate].
    apply expect_length in Ec.
    destruct (IHv r2) as [H1 H2]; [lia|].
    destruct (parse_value fuel r2) as [v r3| |]; [|split; discriminate|congruence].
    specialize (H2 _ _ eq_refl).
    pose proof (skip_ws_length r3) as Hr3.
    destruct (expect 44 (skip_ws r3)) as [r'|] eqn:E4.
    { apply expect_length in E4.
      destruct (IHm (define k v ps) r') as [H3 H4]; [lia|]. split; [exact H3|].
      intros a r0 H. apply H4 in H. lia. }
    destruct (expect 125 (skip_ws r3)) as [r'|] eqn:E5; [|split; discriminate].
    apply expect_length in E5. split; [discriminate|].
    intros a r0 H; inversion H; subst. lia.
Qed.

(** The fuel [JSON_parse] gives is enough for every text. *)
Theorem JSON_parse_fuel text :
  parse_value (S (2 * List.length text)) text <> OutOfFuel.
Proof. apply (proj1 (parse_fuel (S (2 * List.length text)))). lia. Qed.

End ParserFacts.


(* ===================================================================== *)
(** * The handlers compute their closed forms                             *)
(* ===================================================================== *)

Module HandlerFacts.
Import JS ThemeService Runtime Observe DisplaySettings Summary JSFacts.

Ltac break_match :=
  match goal with
  | |- context [match ?x with _ => _ end] =>
      lazymatch x with
      | context [match _ with _ => _ end] => fail
      | _ => destruct x eqn:?
      end
  end.

Ltac run :=
  cbn -[JSON_parse JSON_stringify trim lit nonblank_string lookup define str_eqb] in *.

Ltac run_outer :=
  cbn -[checkDisplayPreferences checkAccessibilitySettings initializeDefaultSettings
        JSON_parse JSON_stringify trim lit nonblank_string lookup define str_eqb
        readable caught] in *.

(** ** The two checks *)

Lemma checkDisplayPreferences_run ts u c w :
  checkDisplayPreferences ts u (c, w) =
  let field := lookup (lit "display_preferences") (fields u) in
  match readable field with
  | Some v =>
      (Normal (negb (is_some (includes_theme (prop v (lit "theme"))))),
       (display_cells ts v c, w))
  | None =>
      (Normal true,
       (c, emit_if (caught field)
             (console_error "Error parsing display preferences:") w))
  end.
Proof.
  unfold checkDisplayPreferences, readable, caught, display_cells, new_theme,
    new_fontSize, emit_if.
  cbv zeta.
  destruct (nonblank_string _) as [text|]; [|reflexivity].
  unfold try_catch, bind, lift, ret, log, effect, setTheme, setFontSize,
    setHasChanges, modify.
  destruct (JSON_parse text) as [v|e]; [|reflexivity].
  destruct v; run; try reflexivity.
  all: repeat (break_match; run; try discriminate; try reflexivity).
  all: destruct c; reflexivity.
Qed.

Lemma checkAccessibilitySettings_run ts u c w :
  checkAccessibilitySettings ts u (c, w) =
  let field := lookup (lit "accessibility_settings") (fields u) in
  match readable field with
  | Some v => (Normal false, (accessibility_cells ts v c, w))
  | None =>
      (Normal true,
       (c, emit_if (caught field)
             (console_error "Error parsing accessibility settings:") w))
  end.
Proof.
  unfold checkAccessibilitySettings, readable, caught, accessibility_cells,
    new_boolean, emit_if.
  cbv zeta.
  destruct (nonblank_string _) as [text|]; [|reflexivity].
  unfold try_catch, bind, lift, ret, log, effect, setColorBlindMode,
    setReducedMotion, setHasChanges, modify.
  destruct (JSON_parse text) as [v|e]; [|reflexivity].
  destruct v; run; try reflexivity.
  all: repeat (break_match; run; try discriminate; try reflexivity).
  all: destruct c; reflexivity.
Qed.

(** ** The write-back *)

Lemma updateData_display v :
  define (lit "display_preferences") v [] = [(lit "display_preferences", v)].
Proof. reflexivity. Qed.

Lemma updateData_accessibility v :
  define (lit "accessibility_settings") v [] = [(lit "accessibility_settings", v)].
Proof. reflexivity. Qed.

Lemma updateData_both v v' :
  define (lit "accessibility_settings") v' [(lit "display_preferences", v)] =
  [(lit "display_preferences", v); (lit "accessibility_settings", v')].
Proof. reflexivity. Qed.

Lemma initializeDefaultSettings_run u d a c w :
  current_user w = Some u ->
  d || a = true ->
  initializeDefaultSettings first_render (user_id u) d a (c, w) =
  (Normal tt, (c, written_back u (seeded d a) w)).
Proof.
  intros Hu Hda.
  unfold initializeDefaultSettings, try_catch, updateFields, bind, log, effect,
    world, throw, ret, written_back, seeded.
  destruct d, a; try discriminate;
    rewrite ?updateData_display, ?updateData_accessibility, ?updateData_both;
    run; rewrite ?Hu;
    destruct (update_fails w); run; rewrite ?str_eqb_refl; reflexivity.
Qed.

(** ** The whole handler *)

Lemma readable_caught field v : readable field = Some v -> caught field = false.
Proof. unfold readable, caught. repeat break_match; congruence. Qed.

Lemma current_user_emit_if b e w : current_user (emit_if b e w) = current_user w.
Proof. now destruct b. Qed.

Lemma idb_emit_if b e w : idb (emit_if b e w) = idb w.
Proof. now destruct b. Qed.

Lemma update_fails_emit_if b e w : update_fails (emit_if b e w) = update_fails w.
Proof. now destruct b. Qed.

(** [mount] computes [mounted]. *)
Theorem mount_run w : mount w = mounted w.
Proof.
  unfold mount, mounted, loadPreferences, try_catch, bind, getThemeSettings,
    getCurrentUser, bind, world, ret, setCurrentSettings, setTheme, setFontSize,
    setColorBlindMode, setReducedMotion, setHasChanges, modify.
  run_outer.
  destruct (current_user w) as [u|] eqn:Hu; [|reflexivity].
  rewrite checkDisplayPreferences_run. cbv zeta.
  unfold reconciled, display_part, accessibility_part, display_flag, accessibility_flag.
  destruct (readable (lookup (lit "display_preferences") (fields u))) as [v|] eqn:Hd;
    rewrite checkAccessibilitySettings_run; cbv zeta;
    destruct (readable (lookup (lit "accessibility_settings") (fields u))) as [v'|] eqn:Ha;
    rewrite ?(@readable_caught _ _ Hd), ?(@readable_caught _ _ Ha);
    cbn [emit_if orb fst snd].
  all: try (destruct (negb _) eqn:Hf; run_outer);
    rewrite ?orb_true_r;
    rewrite ?initializeDefaultSettings_run
      by (rewrite ?current_user_emit_if; auto using orb_true_r);
    unfold display_cells, accessibility_cells; run_outer;
    rewrite ?orb_false_r; try reflexivity.
  all: now rewrite orb_comm, orb_assoc.
Qed.

(** ** Traces *)

Lemma remote_writes_app t t' :
  remote_writes (t ++ t') = remote_writes t ++ remote_writes t'.
Proof.
  induction t as [|e t IH]; simpl; [reflexivity|].
  destruct e; simpl; now rewrite ?IH.
Qed.

Lemma remote_writes_emit_if b msg w :
  remote_writes (trace (emit_if b (console_error msg) w)) = remote_writes (trace w).
Proof.
  destruct b; simpl; [|reflexivity].
  rewrite remote_writes_app. simpl. apply app_nil_r.
Qed.

Lemma remote_writes_written_back u data w :
  remote_writes (trace (written_back u data w)) =
  remote_writes (trace w) ++ [(user_id u, data)].
Proof.
  unfold written_back. destruct (update_fails w); simpl;
    rewrite !remote_writes_app; simpl; rewrite ?app_nil_r; reflexivity.
Qed.

Lemma idb_written_back u data w : idb (written_back u data w) = idb w.
Proof. unfold written_back. now destruct (update_fails w). Qed.

(** ** Consequences of [mount_run] *)

Lemma mount_idb w : idb (snd (mount w)) = idb w.
Proof.
  rewrite mount_run. unfold mounted. destruct (current_user w); [|reflexivity].
  cbn [snd]. destruct (_ || _); rewrite ?idb_written_back, !idb_emit_if; reflexivity.
Qed.

Lemma mount_cells w u :
  current_user w = Some u ->
  fst (mount w) =
  reconciled (idb w) (lookup (lit "display_preferences") (fields u))
    (lookup (lit "accessibility_settings") (fields u)).
Proof. intros Hu. rewrite mount_run. unfold mounted. now rewrite Hu. Qed.

Lemma mount_remote_writes w u :
  current_user w = Some u ->
  let d := display_flag (lookup (lit "display_preferences") (fields u)) in
  let a := accessibility_flag (lookup (lit "accessibility_settings") (fields u)) in
  remote_writes (trace (snd (mount w))) =
  remote_writes (trace w) ++ (if d || a then [(user_id u, seeded d a)] else []).
Proof.
  intros Hu d a. rewrite mount_run. unfold mounted. rewrite Hu. cbn [snd].
  fold d a. destruct (d || a).
  - rewrite remote_writes_written_back, !remote_writes_emit_if. reflexivity.
  - rewrite !remote_writes_emit_if. now rewrite app_nil_r.
Qed.

Lemma needsDisplayPrefsUpdate_flag w u :
  needsDisplayPrefsUpdate w u =
  display_flag (lookup (lit "display_preferences") (fields u)).
Proof.
  unfold needsDisplayPrefsUpdate, value. rewrite checkDisplayPreferences_run.
  cbv zeta. unfold display_flag. now destruct (readable _).
Qed.

Lemma needsAccessibilityUpdate_flag w u :
  needsAccessibilityUpdate w u =
  accessibility_flag (lookup (lit "accessibility_settings") (fields u)).
Proof.
  unfold needsAccessibilityUpdate, value. rewrite checkAccessibilitySettings_run.
  cbv zeta. unfold accessibility_flag. now destruct (readable _).
Qed.

(** ** [handleSubmit] *)

(** [save] computes [saved]. *)
Theorem save_run c w : save c w = saved c w.
Proof.
  unfold save, saved, handleSubmit, try_finally, try_catch, bind, setSaving, modify,
    getCurrentUser, Date_now, saveThemeSettings, updateFields, bind, log, effect,
    world, ret, throw, setCurrentSettings, setHasChanges, extend, emit, set_idb,
    set_current_user, idle, failure_notice, record_of, profile_of.
  cbn -[JSON_stringify lit str_eqb].
  destruct (current_user w) as [u|] eqn:Hu; cbn -[JSON_stringify lit str_eqb].
  2: { rewrite ?Hu, <- ?app_assoc. reflexivity. }
  destruct (put_fails w) eqn:Hp; cbn -[JSON_stringify lit str_eqb].
  { rewrite ?Hu, ?Hp, <- ?app_assoc. reflexivity. }
  destruct (update_fails w) eqn:Hf; cbn -[JSON_stringify lit str_eqb].
  { rewrite ?Hu, ?Hp, ?Hf, <- ?app_assoc. reflexivity. }
  rewrite ?Hu. cbn -[JSON_stringify lit str_eqb]. rewrite str_eqb_refl.
  cbn -[JSON_stringify lit str_eqb].
  rewrite ?Hu, ?Hp, ?Hf, <- ?app_assoc. reflexivity.
Qed.

Lemma save_stores c w u :
  current_user w = Some u ->
  put_fails w = false ->
  idb (snd (save c w)) = record_of c (clock w).
Proof.
  intros Hu Hp. rewrite save_run. unfold saved. rewrite Hu, Hp.
  now destruct (update_fails w).
Qed.

End HandlerFacts.


(* ===================================================================== *)
(** * The Settings Reconciler                                             *)
(* ===================================================================== *)

Module Reconciliation.
Import JS ThemeService Runtime Observe DisplaySettings Summary Literal.
Import JSFacts HandlerFacts.

(** ** What a check takes from a parsed field *)

Lemma readable_parsed field text v :
  nonblank_string field = Some text ->
  JSON_parse text = Normal v ->
  v <> VNull ->
  readable field = Some v.
Proof.
  intros Hn Hp Hv. unfold readable. rewrite Hn, Hp. destruct v; congruence.
Qed.

Lemma display_part_parsed ts field text v o k :
  nonblank_string field = Some text ->
  JSON_parse text = Normal v ->
  get v k = Normal o ->
  display_part ts field =
  (new_theme (ThemeService.theme ts) (prop v (lit "theme")),
   new_fontSize (ThemeService.fontSize ts) (prop v (lit "fontSize"))).
Proof.
  intros Hn Hp Hg. apply get_prop in Hg as [_ Hv].
  unfold display_part. now rewrite (@readable_parsed _ _ _ Hn Hp Hv).
Qed.

Lemma accessibility_part_parsed ts field text v o k :
  nonblank_string field = Some text ->
  JSON_parse text = Normal v ->
  get v k = Normal o ->
  accessibility_part ts field =
  (new_boolean (ThemeService.colorBlindMode ts) (prop v (lit "colorBlindMode")),
   new_boolean (ThemeService.reducedMotion ts) (prop v (lit "reducedMotion"))).
Proof.
  intros Hn Hp Hg. apply get_prop in Hg as [_ Hv].
  unfold accessibility_part. now rewrite (@readable_parsed _ _ _ Hn Hp Hv).
Qed.

Lemma includes_theme_string o t :
  includes_theme o = Some t <-> o = Some (VString (theme_string t)).
Proof.
  unfold includes_theme, as_string. split.
  - destruct o as [[]|]; try discriminate.
    destruct (str_eqb s (theme_string light)) eqn:E1.
    + apply str_eqb_eq in E1. intros H; inversion H; subst. reflexivity.
    + destruct (str_eqb s (theme_string dark)) eqn:E2; [|discriminate].
      apply str_eqb_eq in E2. intros H; inversion H; subst. reflexivity.
  - intros ->. now destruct t.
Qed.

(** The theme of the profile is taken exactly when it is one of the two
    themes and is not the stored one. *)
Lemma new_theme_some base o t :
  new_theme base o = Some t <-> o = Some (VString (theme_string t)) /\ t <> base.
Proof.
  unfold new_theme. split.
  - destruct (includes_theme o) as [t'|] eqn:E; [|discriminate].
    apply includes_theme_string in E. subst o.
    destruct (_ && _) eqn:C; [|discriminate]. intros H; inversion H; subst.
    split; [reflexivity|]. intros ->.
    apply andb_true_iff in C as [_ C]. simpl in C.
    now rewrite str_eqb_refl in C.
  - intros [-> Hne].
    rewrite (proj2 (includes_theme_string _ t) eq_refl).
    destruct t, base; try reflexivity; congruence.
Qed.

Lemma new_fontSize_truthy base x :
  truthy x = true -> differs (Some x) base = true ->
  new_fontSize base (Some x) = Some x.
Proof. intros Ht Hd. unfold new_fontSize. now rewrite Ht, Hd. Qed.

Lemma new_fontSize_falsy base x :
  truthy x = false -> new_fontSize base (Some x) = None.
Proof. intros Ht. unfold new_fontSize. now rewrite Ht. Qed.

Lemma differs_string s base :
  base <> VString s -> differs (Some (VString s)) base = true.
Proof.
  intros Hne. unfold differs. apply negb_true_iff.
  destruct (strict_eqb (VString s) base) eqn:E; [|reflexivity].
  apply strict_eqb_string in E. congruence.
Qed.

Lemma new_boolean_some base b :
  b <> base -> new_boolean base (Some (VBool b)) = Some b.
Proof. intros Hne. unfold new_boolean. destruct b, base; simpl; congruence. Qed.

Lemma new_boolean_none base x :
  as_boolean (Some x) = None -> new_boolean base (Some x) = None.
Proof. intros H. unfold new_boolean. now rewrite H. Qed.

(** ** The profile after a write-back *)

Lemma lookup_display_merge_seeded d a u :
  lookup (lit "display_preferences") (fields (merge (seeded d a) u)) =
  if d then Some default_display_preferences
  else lookup (lit "display_preferences") (fields u).
Proof.
  unfold merge, seeded. destruct d, a; cbn [fields fold_left app fst snd];
    rewrite ?lookup_define_other by reflexivity;
    rewrite ?lookup_define_same; reflexivity.
Qed.

Lemma lookup_accessibility_merge_seeded d a u :
  lookup (lit "accessibility_settings") (fields (merge (seeded d a) u)) =
  if a then Some default_accessibility_settings
  else lookup (lit "accessibility_settings") (fields u).
Proof.
  unfold merge, seeded. destruct d, a; cbn [fields fold_left app fst snd];
    rewrite ?lookup_define_same;
    rewrite ?lookup_define_other by reflexivity;
    rewrite ?lookup_define_same; reflexivity.
Qed.

(** The defaults that a write-back stores pass both checks. *)
Lemma default_display_not_flagged :
  display_flag (Some default_display_preferences) = false.
Proof. vm_compute. reflexivity. Qed.

Lemma default_accessibility_not_flagged :
  accessibility_flag (Some default_accessibility_settings) = false.
Proof. vm_compute. reflexivity. Qed.

(** ** The write-back *)

(** C1: what the code does. When [needsDisplayPrefsUpdate] or
    [needsAccessibilityUpdate] is set at the end of reconciliation, the run
    makes exactly one remote write, to the record of the signed-in user; its
    field map has exactly the flagged fields, and the value written for a
    flagged field is the serialization of the settings of the first render,
    that is of [DEFAULT_THEME_SETTINGS], whatever the working state and the
    Local Preference Store hold. [initializeDefaultSettings] serializes the
    state variables [theme], [fontSize], [colorBlindMode] and
    [reducedMotion], as [handleSubmit] does; they are those of the first
    render only because [loadPreferences], which runs in an effect without
    dependencies, calls the closure of that render. *)
Theorem flagged_fields_seeded_with_defaults w u :
  current_user w = Some u ->
  needsDisplayPrefsUpdate w u || needsAccessibilityUpdate w u = true ->
  remote_writes (trace (snd (mount w))) =
  remote_writes (trace w) ++
  [(user_id u,
    seeded (needsDisplayPrefsUpdate w u) (needsAccessibilityUpdate w u))].
Proof.
  intros Hu Hf. rewrite (@mount_remote_writes _ _ Hu). cbv zeta.
  rewrite <- (needsDisplayPrefsUpdate_flag w), <- (needsAccessibilityUpdate_flag w).
  now rewrite Hf.
Qed.

(** A profile without either field, next to a store that holds a light
    theme and small type: both fields are written, with the dark theme and
    medium type of the defaults. *)
Lemma flagged_fields_seeded_with_defaults_witness :
  let w := healthy (stored light small true false) (alice []) 0 [] in
  remote_writes (trace (snd (mount w))) =
  [(lit "alice",
    [(lit "display_preferences",
       VString (json_lit "{'theme':'dark','fontSize':'medium'}"));
     (lit "accessibility_settings",
       VString (json_lit "{'colorBlindMode':false,'reducedMotion':false}"))])].
Proof.
  intros w.
  rewrite (@flagged_fields_seeded_with_defaults w (alice []) eq_refl eq_refl).
  reflexivity.
Defined.

(** C1, as the specification states it, does not hold of the code: in the
    world above the working state is the light theme with small type, and
    it is not what the write-back serializes. *)
Lemma working_state_not_written_back :
  ~ writes_back_working_state
      (healthy (stored light small true false) (alice []) 0 []).
Proof.
  intros H.
  destruct (H (lit "alice") (seeded true true)) as [Hd _].
  - vm_compute. left. reflexivity.
  - specialize (Hd _ eq_refl). vm_compute in Hd. discriminate Hd.
Qed.

(** C4. For every stored record and every signed-in user record, when the
    reconciliation runs, its write-back (if there is one) takes effect on
    the user record, and the reconciliation runs again, the second run makes
    no remote write. *)
Theorem reconciliation_idempotent store u now past :
  let w1 := snd (mount (healthy store u now past)) in
  remote_writes (trace (snd (mount w1))) = remote_writes (trace w1).
Proof.
  intros w1.
  set (d := display_flag (lookup (lit "display_preferences") (fields u))).
  set (a := accessibility_flag (lookup (lit "accessibility_settings") (fields u))).
  assert (Hu1 : current_user w1 =
                Some (if d || a then merge (seeded d a) u else u)).
  { unfold w1. rewrite mount_run. unfold mounted, healthy. cbn [current_user snd].
    fold d a. destruct (d || a); [|now rewrite !current_user_emit_if].
    unfold written_back. rewrite !update_fails_emit_if. reflexivity. }
  rewrite (@mount_remote_writes _ _ Hu1). cbv zeta.
  assert (Hd : display_flag
                 (lookup (lit "display_preferences")
                    (fields (if d || a then merge (seeded d a) u else u))) = false).
  { destruct (d || a) eqn:E.
    - rewrite lookup_display_merge_seeded. destruct d eqn:Ed.
      + apply default_display_not_flagged.
      + exact Ed.
    - apply orb_false_iff in E as [E _]. exact E. }
  assert (Ha : accessibility_flag
                 (lookup (lit "accessibility_settings")
                    (fields (if d || a then merge (seeded d a) u else u))) = false).
  { destruct (d || a) eqn:E.
    - rewrite lookup_accessibility_merge_seeded. destruct a eqn:Ea.
      + apply default_accessibility_not_flagged.
      + exact Ea.
    - apply orb_false_iff in E as [_ E]. exact E. }
  rewrite Hd, Ha. apply app_nil_r.
Qed.

(** ** The working state *)

(** C5. For a signed-in user, a value of the profile that is valid and
    differs from the stored one becomes the working value and marks unsaved
    changes: a theme among the two themes, a font size among the four
    sizes, a boolean colour-blind mode, a boolean reduced motion. The record
    of the Local Preference Store is the same after the reconciliation as
    before; a [save] whose local write is accepted replaces it. *)
Theorem valid_remote_value_wins_store_untouched w u :
  current_user w = Some u ->
  (forall text v t,
     nonblank_string (lookup (lit "display_preferences") (fields u)) = Some text ->
     JSON_parse text = Normal v ->
     get v (lit "theme") = Normal (Some (VString (theme_string t))) ->
     t <> ThemeService.theme (idb w) ->
     theme (fst (mount w)) = t /\ hasChanges (fst (mount w)) = true)
  /\ (forall text v f,
     nonblank_string (lookup (lit "display_preferences") (fields u)) = Some text ->
     JSON_parse text = Normal v ->
     get v (lit "fontSize") = Normal (Some (VString (fontSize_string f))) ->
     ThemeService.fontSize (idb w) <> VString (fontSize_string f) ->
     fontSize (fst (mount w)) = VString (fontSize_string f)
     /\ hasChanges (fst (mount w)) = true)
  /\ (forall text v b,
     nonblank_string (lookup (lit "accessibility_settings") (fields u)) = Some text ->
     JSON_parse text = Normal v ->
     get v (lit "colorBlindMode") = Normal (Some (VBool b)) ->
     b <> ThemeService.colorBlindMode (idb w) ->
     colorBlindMode (fst (mount w)) = b /\ hasChanges (fst (mount w)) = true)
  /\ (forall text v b,
     nonblank_string (lookup (lit "accessibility_settings") (fields u)) = Some text ->
     JSON_parse text = Normal v ->
     get v (lit "reducedMotion") = Normal (Some (VBool b)) ->
     b <> ThemeService.reducedMotion (idb w) ->
     reducedMotion (fst (mount w)) = b /\ hasChanges (fst (mount w)) = true)
  /\ idb (snd (mount w)) = idb w
  /\ (forall c, put_fails w = false -> idb (snd (save c w)) = record_of c (clock w)).
Proof.
  intros Hu. rewrite (@mount_cells _ _ Hu). unfold reconciled.
  cbn [theme fontSize colorBlindMode reducedMotion hasChanges].
  split; [|split; [|split; [|split; [|split]]]].
  - intros text v t Hn Hp Hg Hne.
    rewrite (@display_part_parsed (idb w) _ _ _ _ _ Hn Hp Hg). cbn [fst].
    apply get_prop in Hg as [-> _].
    now rewrite (proj2 (new_theme_some _ _ t) (conj eq_refl Hne)).
  - intros text v f Hn Hp Hg Hne.
    rewrite (@display_part_parsed (idb w) _ _ _ _ _ Hn Hp Hg). cbn [snd].
    apply get_prop in Hg as [-> _].
    rewrite new_fontSize_truthy; [|now destruct f|now apply differs_string].
    cbn [chosen is_some]. now rewrite orb_true_r.
  - intros text v b Hn Hp Hg Hne.
    rewrite (@accessibility_part_parsed (idb w) _ _ _ _ _ Hn Hp Hg). cbn [fst].
    apply get_prop in Hg as [-> _]. rewrite new_boolean_some by assumption.
    cbn [chosen is_some]. now rewrite orb_true_r.
  - intros text v b Hn Hp Hg Hne.
    rewrite (@accessibility_part_parsed (idb w) _ _ _ _ _ Hn Hp Hg). cbn [snd].
    apply get_prop in Hg as [-> _]. rewrite new_boolean_some by assumption.
    cbn [chosen is_some]. now rewrite orb_true_r.
  - apply mount_idb.
  - intros c Hp. now apply save_stores with (u := u).
Qed.

(** The example of the specification: the profile has the light theme and
    medium type, the store the dark theme and small type. *)
Lemma valid_remote_value_wins_store_untouched_witness :
  let w := healthy (stored dark small false false)
             (alice [(lit "display_preferences",
                      VString (json_lit "{'theme':'light','fontSize':'medium'}"))])
             0 [] in
  theme (fst (mount w)) = light
  /\ fontSize (fst (mount w)) = VString (lit "medium")
  /\ hasChanges (fst (mount w)) = true
  /\ idb (snd (mount w)) = stored dark small false false.
Proof.
  intros w.
  destruct (@valid_remote_value_wins_store_untouched w
              (alice [(lit "display_preferences",
                       VString (json_lit "{'theme':'light','fontSize':'medium'}"))])
              eq_refl) as (Ht & Hf & _ & _ & Hi & _).
  pose (v := VObject [(lit "theme", VString (lit "light"));
                      (lit "fontSize", VString (lit "medium"))]).
  destruct (Ht (json_lit "{'theme':'light','fontSize':'medium'}") v light
              eq_refl eq_refl eq_refl) as [Ht1 Ht2]; [discriminate|].
  destruct (Hf (json_lit "{'theme':'light','fontSize':'medium'}") v medium
              eq_refl eq_refl eq_refl) as [Hf1 _]; [discriminate|].
  split; [exact Ht1|split; [exact Hf1|split; [exact Ht2|exact Hi]]].
Defined.

(** C6. For a signed-in user whose [display_preferences] parses: a theme of
    the profile that is one of the two themes and is not the stored one
    becomes the working theme and marks unsaved changes; the working theme
    differs from the stored one only in that case; and when the field has a
    theme that is neither of the two, the working theme is the stored one,
    [needsDisplayPrefsUpdate] is set and the run sends a remote write whose
    field map starts with [display_preferences]. *)
Theorem remote_theme_validated w u text v :
  current_user w = Some u ->
  nonblank_string (lookup (lit "display_preferences") (fields u)) = Some text ->
  JSON_parse text = Normal v ->
  (forall t,
     get v (lit "theme") = Normal (Some (VString (theme_string t))) ->
     t <> ThemeService.theme (idb w) ->
     theme (fst (mount w)) = t /\ hasChanges (fst (mount w)) = true)
  /\ (theme (fst (mount w)) <> ThemeService.theme (idb w) ->
      exists t,
        get v (lit "theme") = Normal (Some (VString (theme_string t)))
        /\ t <> ThemeService.theme (idb w)
        /\ theme (fst (mount w)) = t
        /\ hasChanges (fst (mount w)) = true)
  /\ (forall x,
        get v (lit "theme") = Normal (Some x) ->
        (forall t, x <> VString (theme_string t)) ->
        theme (fst (mount w)) = ThemeService.theme (idb w)
        /\ needsDisplayPrefsUpdate w u = true
        /\ exists others,
             remote_writes (trace (snd (mount w))) =
             remote_writes (trace w) ++
             [(user_id u,
               (lit "display_preferences", default_display_preferences) :: others)]).
Proof.
  intros Hu Hn Hp.
  rewrite (@mount_cells _ _ Hu). unfold reconciled. cbn [theme hasChanges].
  split; [|split].
  - intros t Hg Hne.
    rewrite (@display_part_parsed (idb w) _ _ _ _ _ Hn Hp Hg). cbn [fst].
    apply get_prop in Hg as [-> _].
    now rewrite (proj2 (new_theme_some _ _ t) (conj eq_refl Hne)).
  - intros Hne. destruct v.
    1: { exfalso. apply Hne. unfold display_part, readable. now rewrite Hn, Hp. }
    all: rewrite (@display_part_parsed (idb w) _ _ _ _ (lit "theme") Hn Hp eq_refl) in *;
      cbn [fst get prop] in *.
    1-4: exfalso; now apply Hne.
    destruct (new_theme (ThemeService.theme (idb w)) (lookup (lit "theme") ps))
      as [t|] eqn:E.
    + apply new_theme_some in E as [E1 E2]. exists t. rewrite E1.
      repeat split; auto.
    + exfalso. now apply Hne.
  - intros x Hg Hx.
    assert (Hi : includes_theme (Some x) = None).
    { destruct (includes_theme (Some x)) as [t|] eqn:E; [|reflexivity].
      apply includes_theme_string in E. inversion E as [E']. now apply Hx in E'. }
    rewrite (@display_part_parsed (idb w) _ _ _ _ _ Hn Hp Hg). cbn [fst].
    pose proof (@get_prop _ _ _ Hg) as [Hprop Hv].
    assert (Hflag : display_flag (lookup (lit "display_preferences") (fields u)) = true).
    { unfold display_flag. rewrite (@readable_parsed _ _ _ Hn Hp Hv).
      now rewrite Hprop, Hi. }
    split; [|split].
    + unfold new_theme. now rewrite Hprop, Hi.
    + now rewrite needsDisplayPrefsUpdate_flag.
    + rewrite (@mount_remote_writes _ _ Hu). cbv zeta. rewrite Hflag.
      cbn [orb]. unfold seeded. eexists. reflexivity.
Qed.

(** The example of the specification: the profile has the theme "purple". *)
Lemma remote_theme_validated_witness :
  let u := alice [(lit "display_preferences", VString (json_lit "{'theme':'purple'}"))] in
  let w := healthy (stored light small false false) u 0 [] in
  theme (fst (mount w)) = light
  /\ needsDisplayPrefsUpdate w u = true
  /\ exists others,
       remote_writes (trace (snd (mount w))) =
       [(lit "alice",
         (lit "display_preferences",
          VString (json_lit "{'theme':'dark','fontSize':'medium'}")) :: others)].
Proof.
  intros u w.
  destruct (@remote_theme_validated w u (json_lit "{'theme':'purple'}")
              (VObject [(lit "theme", VString (lit "purple"))])
              eq_refl eq_refl eq_refl) as (_ & _ & H).
  apply (H (VString (lit "purple")) eq_refl).
  intros [|]; discriminate.
Defined.

(** C7, as the code has it. For a signed-in user whose
    [display_preferences] parses to a value that has a [fontSize]: when that
    [fontSize] is truthy (a string that is not empty, a number other than
    zero, [true], an array or an object) and differs from the stored one, it
    becomes the working font size, whether or not it is one of the four
    sizes, and marks unsaved changes; when it is falsy (the empty string,
    zero, [false] or [null]) the working font size is the stored one. *)
Theorem truthy_remote_fontSize_applied w u text v x :
  current_user w = Some u ->
  nonblank_string (lookup (lit "display_preferences") (fields u)) = Some text ->
  JSON_parse text = Normal v ->
  get v (lit "fontSize") = Normal (Some x) ->
  (truthy x = true ->
   differs (Some x) (ThemeService.fontSize (idb w)) = true ->
   fontSize (fst (mount w)) = x /\ hasChanges (fst (mount w)) = true)
  /\ (truthy x = false ->
      fontSize (fst (mount w)) = ThemeService.fontSize (idb w)).
Proof.
  intros Hu Hn Hp Hg.
  rewrite (@mount_cells _ _ Hu). unfold reconciled. cbn [fontSize hasChanges].
  rewrite (@display_part_parsed (idb w) _ _ _ _ _ Hn Hp Hg). cbn [snd].
  apply get_prop in Hg as [-> _]. split.
  - intros Ht Hd. rewrite new_fontSize_truthy by assumption.
    cbn [chosen is_some]. now rewrite orb_true_r.
  - intros Ht. now rewrite new_fontSize_falsy.
Qed.

(** A font size that is none of the four sizes is applied. *)
Lemma truthy_remote_fontSize_applied_witness :
  let u := alice [(lit "display_preferences",
                   VString (json_lit "{'theme':'dark','fontSize':'gigantic'}"))] in
  let w := healthy (stored dark medium false false) u 0 [] in
  fontSize (fst (mount w)) = VString (lit "gigantic")
  /\ hasChanges (fst (mount w)) = true.
Proof.
  intros u w.
  apply (@truthy_remote_fontSize_applied w u
           (json_lit "{'theme':'dark','fontSize':'gigantic'}")
           (VObject [(lit "theme", VString (lit "dark"));
                     (lit "fontSize", VString (lit "gigantic"))])
           (VString (lit "gigantic")) eq_refl eq_refl eq_refl eq_refl);
    reflexivity.
Defined.

(** C7, as the specification states it, fails: an empty [fontSize] is
    present and differs from the stored "medium", and is not applied. *)
Lemma empty_fontSize_not_applied :
  ~ applies_any_present_fontSize
      (healthy (stored dark medium false false)
         (alice [(lit "display_preferences",
                  VString (json_lit "{'theme':'dark','fontSize':''}"))]) 0 []).
Proof.
  intros H.
  destruct (H _ (json_lit "{'theme':'dark','fontSize':''}")
              (VObject [(lit "theme", VString (lit "dark"));
                        (lit "fontSize", VString [])])
              (VString []) eq_refl eq_refl eq_refl eq_refl eq_refl) as [Hf _].
  vm_compute in Hf. discriminate Hf.
Qed.

(** C10. For a signed-in user whose [accessibility_settings] parses: a
    [colorBlindMode], or a [reducedMotion], that the parsed value has and
    that is not a boolean leaves the working value at the stored one; and
    with such a value in the field, [needsAccessibilityUpdate] is not set and
    no remote write of the run has [accessibility_settings] in its field
    map. *)
Theorem non_boolean_accessibility_value_ignored w u text v x :
  current_user w = Some u ->
  nonblank_string (lookup (lit "accessibility_settings") (fields u)) = Some text ->
  JSON_parse text = Normal v ->
  as_boolean (Some x) = None ->
  (get v (lit "colorBlindMode") = Normal (Some x) ->
   colorBlindMode (fst (mount w)) = ThemeService.colorBlindMode (idb w))
  /\ (get v (lit "reducedMotion") = Normal (Some x) ->
      reducedMotion (fst (mount w)) = ThemeService.reducedMotion (idb w))
  /\ (get v (lit "colorBlindMode") = Normal (Some x)
      \/ get v (lit "reducedMotion") = Normal (Some x) ->
      needsAccessibilityUpdate w u = false
      /\ exists new,
           remote_writes (trace (snd (mount w))) = remote_writes (trace w) ++ new
           /\ forall record_id data,
                In (record_id, data) new ->
                lookup (lit "accessibility_settings") data = None).
Proof.
  intros Hu Hn Hp Hx.
  rewrite (@mount_cells _ _ Hu). unfold reconciled.
  cbn [colorBlindMode reducedMotion].
  split; [|split].
  - intros Hg. rewrite (@accessibility_part_parsed (idb w) _ _ _ _ _ Hn Hp Hg).
    cbn [fst]. apply get_prop in Hg as [-> _]. now rewrite new_boolean_none.
  - intros Hg. rewrite (@accessibility_part_parsed (idb w) _ _ _ _ _ Hn Hp Hg).
    cbn [snd]. apply get_prop in Hg as [-> _]. now rewrite new_boolean_none.
  - intros Hg.
    assert (Hv : v <> VNull).
    { destruct Hg as [Hg|Hg]; now apply get_prop in Hg. }
    assert (Hflag : accessibility_flag
                      (lookup (lit "accessibility_settings") (fields u)) = false).
    { unfold accessibility_flag. now rewrite (@readable_parsed _ _ _ Hn Hp Hv). }
    split; [now rewrite needsAccessibilityUpdate_flag|].
    rewrite (@mount_remote_writes _ _ Hu). cbv zeta. rewrite Hflag.
    eexists. split; [reflexivity|].
    intros record_id data Hin.
    destruct (display_flag _); cbn in Hin; [|contradiction].
    destruct Hin as [Hin|[]]. inversion Hin. reflexivity.
Qed.

(** A [colorBlindMode] that is the string "true". *)
Lemma non_boolean_accessibility_value_ignored_witness :
  let u := alice [(lit "display_preferences",
                   VString (json_lit "{'theme':'dark','fontSize':'medium'}"));
                  (lit "accessibility_settings",
                   VString (json_lit "{'colorBlindMode':'true','reducedMotion':true}"))] in
  let w := healthy (stored dark medium false false) u 0 [] in
  colorBlindMode (fst (mount w)) = false
  /\ needsAccessibilityUpdate w u = false
  /\ remote_writes (trace (snd (mount w))) = [].
Proof.
  intros u w.
  destruct (@non_boolean_accessibility_value_ignored w u
              (json_lit "{'colorBlindMode':'true','reducedMotion':true}")
              (VObject [(lit "colorBlindMode", VString (lit "true"));
                        (lit "reducedMotion", VBool true)])
              (VString (lit "true")) eq_refl eq_refl eq_refl eq_refl)
    as (Hc & _ & Hw).
  split; [exact (Hc eq_refl)|].
  destruct (Hw (or_introl eq_refl)) as [Hflag _].
  split; [exact Hflag|reflexivity].
Defined.

End Reconciliation.


(* ===================================================================== *)
(** * The Settings Form Controller: [save]                                *)
(* ===================================================================== *)

Module Saving.
Import JS ThemeService Runtime Observe DisplaySettings Summary Literal.
Import JSFacts HandlerFacts.

(** C8. The writes a [save] attempts are, in this order: none; or the local
    write alone; or the local write and then the remote write. When the
    local write is accepted and the remote write is rejected, each was
    attempted once, the store holds the record just written and the profile
    is as it was. *)
Theorem local_write_precedes_remote_write c w :
  let final := save c w in
  let r := record_of c (clock w) in
  exists new,
    trace (snd final) = trace w ++ new
    /\ (filter is_write new = []
        \/ filter is_write new = [saveThemeSettings_called r]
        \/ exists u,
             current_user w = Some u
             /\ filter is_write new =
                [saveThemeSettings_called r;
                 updateFields_called USERS (user_id u) (profile_of c)])
    /\ (forall u,
          current_user w = Some u ->
          put_fails w = false ->
          update_fails w = true ->
          filter is_write new =
            [saveThemeSettings_called r;
             updateFields_called USERS (user_id u) (profile_of c)]
          /\ idb (snd final) = r
          /\ current_user (snd final) = Some u).
Proof.
  intros final r. unfold final. rewrite save_run. unfold saved.
  destruct (current_user w) as [u|] eqn:Hu.
  2: { eexists. split; [reflexivity|]. split; [now left|]. discriminate. }
  destruct (put_fails w) eqn:Hp.
  { eexists. split; [reflexivity|]. split; [right; now left|]. discriminate. }
  destruct (update_fails w) eqn:Hf.
  - eexists. split; [reflexivity|]. split.
    + right; right. exists u. split; reflexivity.
    + intros u' Hu' _ _. inversion Hu'; subst. repeat split; try reflexivity.
      exact Hu.
  - eexists. split; [reflexivity|]. split.
    + right; right. exists u. split; reflexivity.
    + discriminate.
Qed.

(** The remote write is rejected after the local one was accepted. *)
Lemma local_write_precedes_remote_write_witness :
  let c := form light (VString (lit "large")) true false first_render in
  let u := alice [] in
  let w := {| idb := stored dark medium false false; current_user := Some u;
              put_fails := false; update_fails := true; clock := 5; trace := [] |} in
  filter is_write (trace (snd (save c w))) =
    [saveThemeSettings_called (record_of c 5);
     updateFields_called USERS (lit "alice") (profile_of c)]
  /\ idb (snd (save c w)) = record_of c 5
  /\ current_user (snd (save c w)) = Some u.
Proof.
  intros c u w.
  destruct (@local_write_precedes_remote_write c w) as (new & Htrace & _ & H).
  destruct (H u eq_refl eq_refl eq_refl) as (Hw & Hi & Hu).
  rewrite Htrace. split; [exact Hw|split; [exact Hi|exact Hu]].
Defined.

(** C2, as the code has it. When a signed-in user saves and the local or
    the remote write is rejected: the failure is logged and a failure notice
    is shown, after the writes that were attempted; the cells are as before
    but for [saving], which is cleared, so [currentSettings] and
    [hasChanges] are unchanged; the profile is unchanged; the Local
    Preference Store is unchanged when its own write was rejected, and holds
    the record just written when its write was accepted and the remote one
    was rejected. *)
Theorem failed_save_keeps_memory_and_profile c w u :
  current_user w = Some u ->
  put_fails w = true \/ update_fails w = true ->
  let final := save c w in
  (exists attempts,
     trace (snd final) = trace w ++ attempts ++ failure_notice
     /\ forallb is_write attempts = true)
  /\ currentSettings (fst final) = currentSettings c
  /\ hasChanges (fst final) = hasChanges c
  /\ fst final = idle c
  /\ current_user (snd final) = Some u
  /\ (put_fails w = true -> idb (snd final) = idb w)
  /\ (put_fails w = false -> idb (snd final) = record_of c (clock w)).
Proof.
  intros Hu Hfail final. unfold final. rewrite save_run. unfold saved. rewrite Hu.
  destruct (put_fails w) eqn:Hp.
  - cbn [fst snd extend trace idb current_user idle currentSettings hasChanges].
    repeat split; auto; try discriminate.
    eexists [_]. split; reflexivity.
  - destruct Hfail as [Hfail|Hfail]; [discriminate|]. rewrite Hfail.
    cbn [fst snd extend trace idb current_user idle currentSettings hasChanges set_idb].
    repeat split; auto; try discriminate.
    eexists [_; _]. split; reflexivity.
Qed.

(** The local write is rejected. *)
Lemma failed_save_keeps_memory_and_profile_witness :
  let c := form light (VString (lit "large")) true false first_render in
  let u := alice [] in
  let w := {| idb := stored dark medium false false; current_user := Some u;
              put_fails := true; update_fails := false; clock := 5; trace := [] |} in
  fst (save c w) = idle c
  /\ current_user (snd (save c w)) = Some u
  /\ idb (snd (save c w)) = stored dark medium false false.
Proof.
  intros c u w.
  destruct (@failed_save_keeps_memory_and_profile c w u eq_refl (or_introl eq_refl))
    as (_ & _ & _ & Hc & Hu & Hi & _).
  split; [exact Hc|split; [exact Hu|exact (Hi eq_refl)]].
Defined.

(** C2, as the specification states it, fails: the remote write is rejected
    after the local one was accepted, and the store no longer holds the
    record it held. *)
Lemma failed_remote_write_leaves_new_record :
  ~ failed_save_leaves_all
      (form light (VString (lit "large")) true false first_render)
      {| idb := stored dark medium false false; current_user := Some (alice []);
         put_fails := false; update_fails := true; clock := 5; trace := [] |}.
Proof.
  intros H. destruct (H (or_intror eq_refl)) as (_ & _ & Hi & _).
  vm_compute in Hi. discriminate Hi.
Qed.

(** ** Save, then a fresh load *)

Lemma lookup_display_merge_profile c u :
  lookup (lit "display_preferences") (fields (merge (profile_of c) u)) =
  Some (VString (JSON_stringify (displayPreferences_of (theme c) (fontSize c)))).
Proof.
  unfold merge, profile_of. cbn [fields fold_left fst snd].
  rewrite lookup_define_other by reflexivity.
  apply lookup_define_same.
Qed.

Lemma lookup_accessibility_merge_profile c u :
  lookup (lit "accessibility_settings") (fields (merge (profile_of c) u)) =
  Some (VString (JSON_stringify
          (accessibilitySettings_of (colorBlindMode c) (reducedMotion c)))).
Proof.
  unfold merge, profile_of. cbn [fields fold_left fst snd].
  apply lookup_define_same.
Qed.

(** The text [handleSubmit] writes for valid settings parses back to them. *)
Lemma display_roundtrip t f :
  JSON_parse (JSON_stringify (displayPreferences_of t (VString (fontSize_string f)))) =
  Normal (displayPreferences_of t (VString (fontSize_string f))).
Proof. destruct t, f; vm_compute; reflexivity. Qed.

Lemma accessibility_roundtrip cb rm :
  JSON_parse (JSON_stringify (accessibilitySettings_of cb rm)) =
  Normal (accessibilitySettings_of cb rm).
Proof. destruct cb, rm; vm_compute; reflexivity. Qed.

Lemma display_nonblank t f :
  nonblank_string
    (Some (VString (JSON_stringify
             (displayPreferences_of t (VString (fontSize_string f)))))) =
  Some (JSON_stringify (displayPreferences_of t (VString (fontSize_string f)))).
Proof. destruct t, f; vm_compute; reflexivity. Qed.

Lemma accessibility_nonblank cb rm :
  nonblank_string (Some (VString (JSON_stringify (accessibilitySettings_of cb rm)))) =
  Some (JSON_stringify (accessibilitySettings_of cb rm)).
Proof. destruct cb, rm; vm_compute; reflexivity. Qed.

Lemma display_readable t f :
  readable
    (Some (VString (JSON_stringify
             (displayPreferences_of t (VString (fontSize_string f)))))) =
  Some (displayPreferences_of t (VString (fontSize_string f))).
Proof. unfold readable. now rewrite display_nonblank, display_roundtrip. Qed.

Lemma accessibility_readable cb rm :
  readable (Some (VString (JSON_stringify (accessibilitySettings_of cb rm)))) =
  Some (accessibilitySettings_of cb rm).
Proof. unfold readable. now rewrite accessibility_nonblank, accessibility_roundtrip. Qed.

(** C3. For every theme of the two, font size of the four, colour-blind
    mode and reduced motion: after a signed-in user saves a form that holds
    them and both writes are accepted, the Local Preference Store holds
    them; the two profile fields are texts that parse to them; and a fresh
    load, which reads the store and reconciles it with that profile, ends
    with them as its working state, without unsaved changes and without a
    remote write. *)
Theorem save_then_fresh_load_reproduces t f cb rm c store u now past :
  let settings := form t (VString (fontSize_string f)) cb rm c in
  let w1 := snd (save settings (healthy store u now past)) in
  let c2 := fst (mount w1) in
  (ThemeService.theme (idb w1) = t
   /\ ThemeService.fontSize (idb w1) = VString (fontSize_string f)
   /\ ThemeService.colorBlindMode (idb w1) = cb
   /\ ThemeService.reducedMotion (idb w1) = rm)
  /\ (exists u1 display accessibility,
        current_user w1 = Some u1
        /\ lookup (lit "display_preferences") (fields u1) = Some (VString display)
        /\ JSON_parse display =
           Normal (displayPreferences_of t (VString (fontSize_string f)))
        /\ lookup (lit "accessibility_settings") (fields u1) =
           Some (VString accessibility)
        /\ JSON_parse accessibility = Normal (accessibilitySettings_of cb rm))
  /\ (theme c2 = t
      /\ fontSize c2 = VString (fontSize_string f)
      /\ colorBlindMode c2 = cb
      /\ reducedMotion c2 = rm
      /\ hasChanges c2 = false)
  /\ remote_writes (trace (snd (mount w1))) = remote_writes (trace w1).
Proof.
  intros settings w1 c2.
  assert (Hw1 : w1 = snd (saved settings (healthy store u now past))).
  { unfold w1. now rewrite save_run. }
  unfold saved, healthy in Hw1.
  cbn [current_user put_fails update_fails snd clock] in Hw1.
  assert (Hu1 : current_user w1 = Some (merge (profile_of settings) u)).
  { now rewrite Hw1. }
  assert (Hidb : idb w1 = record_of settings now).
  { now rewrite Hw1. }
  assert (Hd : lookup (lit "display_preferences")
                 (fields (merge (profile_of settings) u)) =
               Some (VString (JSON_stringify
                       (displayPreferences_of t (VString (fontSize_string f)))))).
  { apply lookup_display_merge_profile. }
  assert (Ha : lookup (lit "accessibility_settings")
                 (fields (merge (profile_of settings) u)) =
               Some (VString (JSON_stringify (accessibilitySettings_of cb rm)))).
  { apply lookup_accessibility_merge_profile. }
  split; [|split; [|split]].
  - rewrite Hidb. repeat split; reflexivity.
  - exists (merge (profile_of settings) u). do 2 eexists.
    split; [exact Hu1|]. split; [exact Hd|]. split; [apply display_roundtrip|].
    split; [exact Ha|apply accessibility_roundtrip].
  - unfold c2. rewrite (@mount_cells _ _ Hu1), Hd, Ha, Hidb.
    unfold reconciled, display_part, accessibility_part.
    rewrite display_readable, accessibility_readable.
    cbn [theme fontSize colorBlindMode reducedMotion hasChanges fst snd].
    unfold record_of, settings, form.
    cbn [ThemeService.theme ThemeService.fontSize ThemeService.colorBlindMode
         ThemeService.reducedMotion theme fontSize colorBlindMode reducedMotion].
    destruct t, f, cb, rm; vm_compute; repeat split; reflexivity.
  - rewrite (@mount_remote_writes _ _ Hu1). cbv zeta. rewrite Hd, Ha.
    unfold display_flag, accessibility_flag.
    rewrite display_readable, accessibility_readable.
    destruct t; cbn; apply app_nil_r.
Qed.

End Saving.

(* ===================================================================== *)
(** * The Theme Toggle                                                    *)
(* ===================================================================== *)

Module Toggling.
Import JS ThemeService Runtime Observe themeUtils ThemeToggle.

(** C9. When no user is signed in, one click on the toggle flips the theme
    the Local Preference Store holds and fires the "theme changed" event,
    and that event is all the click adds to the trace: there is no call of
    [updateFields]. The toggle shows the new theme and is no longer
    loading. *)
Theorem toggle_signed_out_stays_local c w :
  current_user w = None ->
  let final := toggle c w in
  ThemeService.theme (idb (snd final)) = flip (ThemeService.theme (idb w))
  /\ trace (snd final) = trace w ++ [themechange]
  /\ remote_writes (trace (snd final)) = remote_writes (trace w)
  /\ theme (fst final) = flip (ThemeService.theme (idb w))
  /\ isLoading (fst final) = false.
Proof.
  intros Hu final. unfold final, toggle, handleToggle, try_finally, try_catch, bind,
    toggleTheme, handleThemeChange, getCurrentTheme, getCurrentUser, setTheme,
    setIsLoading, modify, bind, world, effect, log, ret.
  cbn. rewrite Hu. cbn.
  repeat split.
  rewrite HandlerFacts.remote_writes_app. cbn. apply app_nil_r.
Qed.

(** A signed-out click in the dark theme. *)
Lemma toggle_signed_out_stays_local_witness :
  let w := {| idb := stored dark medium false false; current_user := None;
              put_fails := false; update_fails := false; clock := 0; trace := [] |} in
  let final := toggle {| theme := dark; isLoading := false |} w in
  ThemeService.theme (idb (snd final)) = light
  /\ trace (snd final) = [themechange]
  /\ theme (fst final) = light.
Proof.
  intros w final.
  destruct (@toggle_signed_out_stays_local {| theme := dark; isLoading := false |} w eq_refl)
    as (Hi & Ht & _ & Hc & _).
  split; [exact Hi|split; [exact Ht|exact Hc]].
Defined.

End Toggling.


(* ===================================================================== *)
(** * More about the handlers: what each run leaves behind                *)
(* ===================================================================== *)

Module RunFacts.
Import JS ThemeService Runtime Observe DisplaySettings Summary themeUtils.
Import JSFacts HandlerFacts Reconciliation.

(** ** [loadPreferences] *)

Lemma mount_signed_out w :
  current_user w = None -> mount w = (loaded (idb w), w).
Proof. intros Hu. rewrite mount_run. unfold mounted. now rewrite Hu. Qed.

(** The events of a run for a signed-in user, in order. *)
Lemma mount_trace w u :
  current_user w = Some u ->
  let display := lookup (lit "display_preferences") (fields u) in
  let accessibility := lookup (lit "accessibility_settings") (fields u) in
  let d := display_flag display in
  let a := accessibility_flag accessibility in
  trace (snd (mount w)) =
  trace w
  ++ (if caught display
      then [console_error "Error parsing display preferences:"] else [])
  ++ (if caught accessibility
      then [console_error "Error parsing accessibility settings:"] else [])
  ++ (if d || a
      then updateFields_called USERS (user_id u) (seeded d a)
           :: (if update_fails w
               then [console_error "Error initializing default settings:"]
               else [])
      else []).
Proof.
  intros Hu display accessibility d a. rewrite mount_run. unfold mounted.
  rewrite Hu. cbn [snd]. fold display accessibility d a.
  unfold written_back, emit_if.
  destruct (caught display), (caught accessibility), (d || a);
    cbn [update_fails emit]; destruct (update_fails w);
    cbn [trace emit set_current_user app]; rewrite <- ?app_assoc, ?app_nil_r;
    reflexivity.
Qed.

Lemma mount_current_user w u :
  current_user w = Some u ->
  let d := display_flag (lookup (lit "display_preferences") (fields u)) in
  let a := accessibility_flag (lookup (lit "accessibility_settings") (fields u)) in
  current_user (snd (mount w)) =
  Some (if (d || a) && negb (update_fails w) then merge (seeded d a) u else u).
Proof.
  intros Hu d a. rewrite mount_run. unfold mounted. rewrite Hu. cbn [snd].
  fold d a. unfold written_back. rewrite ?update_fails_emit_if.
  destruct (d || a), (update_fails w); cbn [andb negb current_user set_current_user emit];
    rewrite ?current_user_emit_if; auto.
Qed.

Lemma mount_flags w :
  put_fails (snd (mount w)) = put_fails w
  /\ update_fails (snd (mount w)) = update_fails w
  /\ clock (snd (mount w)) = clock w.
Proof.
  rewrite mount_run. unfold mounted. destruct (current_user w); [|auto].
  cbn [snd]. unfold written_back, emit_if.
  repeat match goal with |- context [if ?b then _ else _] => destruct b end;
    auto.
Qed.

(** A truthy font size of the profile that differs from the stored one is
    the font size of the form. *)
Lemma mount_fontSize_applied w u text v x :
  current_user w = Some u ->
  nonblank_string (lookup (lit "display_preferences") (fields u)) = Some text ->
  JSON_parse text = Normal v ->
  get v (lit "fontSize") = Normal (Some x) ->
  truthy x = true ->
  differs (Some x) (ThemeService.fontSize (idb w)) = true ->
  fontSize (fst (mount w)) = x.
Proof.
  intros Hu Hn Hp Hg Ht Hd.
  rewrite (@mount_cells _ _ Hu). unfold reconciled. cbn [fontSize].
  rewrite (@display_part_parsed (idb w) _ _ _ _ _ Hn Hp Hg). cbn [snd].
  apply get_prop in Hg as [-> _]. now rewrite new_fontSize_truthy.
Qed.

(** What the form takes from a valid value of the profile, and when that
    leaves the form as the store has it. *)
Lemma chosen_new_theme base t :
  chosen (new_theme base (Some (VString (theme_string t)))) base = t
  /\ (is_some (new_theme base (Some (VString (theme_string t)))) = false <-> base = t).
Proof. destruct t, base; cbn; split; try reflexivity; split; congruence. Qed.

Lemma chosen_new_fontSize base f :
  chosen (new_fontSize base (Some (VString (fontSize_string f)))) base =
    VString (fontSize_string f)
  /\ (is_some (new_fontSize base (Some (VString (fontSize_string f)))) = false
      <-> base = VString (fontSize_string f)).
Proof.
  unfold new_fontSize, differs.
  assert (Ht : truthy (VString (fontSize_string f)) = true) by now destruct f.
  rewrite Ht. cbn [andb].
  destruct (strict_eqb (VString (fontSize_string f)) base) eqn:E; cbn [negb chosen is_some].
  - apply strict_eqb_string in E. subst. split; [reflexivity|]. split; auto.
  - split; [reflexivity|]. split; [discriminate|].
    intros ->. rewrite (proj2 (strict_eqb_string _ _) eq_refl) in E. discriminate.
Qed.

Lemma chosen_new_boolean base b :
  chosen (new_boolean base (Some (VBool b))) base = b
  /\ (is_some (new_boolean base (Some (VBool b))) = false <-> base = b).
Proof. destruct b, base; cbn; split; try reflexivity; split; congruence. Qed.

(** ** [handleSubmit] *)

Lemma lookup_merge_profile_other c u k :
  str_eqb k (lit "display_preferences") = false ->
  str_eqb k (lit "accessibility_settings") = false ->
  lookup k (fields (merge (profile_of c) u)) = lookup k (fields u).
Proof.
  intros Hd Ha. unfold merge, profile_of. cbn [fields fold_left fst snd].
  now rewrite !lookup_define_other.
Qed.

Lemma str_eqb_neq a b : a <> b -> str_eqb a b = false.
Proof.
  intros Hne. destruct (str_eqb a b) eqn:E; [|reflexivity].
  apply str_eqb_eq in E. contradiction.
Qed.

(** ** The comparisons of the effect *)

Lemma strict_eqb_string_r a s : strict_eqb a (VString s) = true <-> a = VString s.
Proof.
  destruct a; simpl; split; try discriminate.
  - intros H. apply str_eqb_eq in H. congruence.
  - intros H. inversion H. apply str_eqb_refl.
Qed.

Lemma strict_eq_string_r a s :
  strict_eq a (VString s) = Some (strict_eqb a (VString s)).
Proof. now destruct a. Qed.

Lemma theme_eqb_eq a b : theme_eqb a b = true <-> a = b.
Proof. destruct a, b; simpl; split; congruence. Qed.

Lemma theme_eqb_refl t : theme_eqb t t = true.
Proof. now destruct t. Qed.

Lemma bool_eqb_refl b : Bool.eqb b b = true.
Proof. now destruct b. Qed.

Lemma negb_false_eq b : negb b = false <-> b = true.
Proof. destruct b; simpl; split; congruence. Qed.

Lemma eqb_true_eq a b : Bool.eqb a b = true <-> a = b.
Proof. destruct a, b; simpl; split; congruence. Qed.

(** Each comparison of the effect, made on the cells [loadPreferences]
    leaves, tells whether the check took a value from the profile. *)
Lemma new_theme_changes base o :
  negb (theme_eqb (chosen (new_theme base o) base) base) = is_some (new_theme base o).
Proof.
  destruct (new_theme base o) as [t|] eqn:E; cbn [chosen is_some].
  - apply new_theme_some in E as [_ Hne]. destruct t, base; try reflexivity; congruence.
  - now rewrite theme_eqb_refl.
Qed.

Lemma new_fontSize_changes s o :
  strict_eq (chosen (new_fontSize (VString s) o) (VString s)) (VString s) =
  Some (negb (is_some (new_fontSize (VString s) o))).
Proof.
  rewrite strict_eq_string_r. f_equal. unfold new_fontSize.
  destruct o as [x|]; cbn [chosen is_some negb differs].
  - destruct (truthy x); cbn [andb].
    + destruct (strict_eqb x (VString s)) eqn:E; cbn [negb chosen is_some]; auto.
      cbn [strict_eqb]. apply str_eqb_refl.
    + cbn [chosen is_some negb strict_eqb]. apply str_eqb_refl.
  - cbn [strict_eqb]. apply str_eqb_refl.
Qed.

Lemma new_boolean_changes base o :
  negb (Bool.eqb (chosen (new_boolean base o) base) base) = is_some (new_boolean base o).
Proof.
  unfold new_boolean. destruct (as_boolean o) as [b|]; cbn [chosen is_some].
  - destruct b, base; reflexivity.
  - now rewrite bool_eqb_refl.
Qed.

(** ** [handleToggle] and [loadTheme] *)

(** [toggle] computes [toggled]. *)
Theorem toggle_run c w : ThemeToggle.toggle c w = toggled c w.
Proof.
  unfold ThemeToggle.toggle, toggled, ThemeToggle.handleToggle, try_finally,
    try_catch, bind, themeUtils.toggleTheme, ThemeToggle.handleThemeChange,
    themeUtils.getCurrentTheme, getCurrentUser, ThemeToggle.setTheme,
    ThemeToggle.setIsLoading, updateFields, modify, bind, world, effect, log, ret,
    lift, throw, toggled_preferences, toggle_caught, emit_if, extend, emit, set_idb,
    set_current_user.
  cbn -[JSON_stringify JSON_parse lit str_eqb define spread ThemeToggle.nonempty_string lookup].
  destruct (current_user w) as [u|] eqn:Hu;
    cbn -[JSON_stringify JSON_parse lit str_eqb define spread ThemeToggle.nonempty_string lookup];
    [|now rewrite ?Hu].
  destruct (ThemeToggle.nonempty_string _) as [text|];
    [destruct (JSON_parse text) as [v|e]|];
    cbn -[JSON_stringify JSON_parse lit str_eqb define spread ThemeToggle.nonempty_string lookup];
    destruct (update_fails w) eqn:Hf;
    cbn -[JSON_stringify JSON_parse lit str_eqb define spread ThemeToggle.nonempty_string lookup];
    rewrite ?Hu;
    cbn -[JSON_stringify JSON_parse lit str_eqb define spread ThemeToggle.nonempty_string lookup];
    rewrite ?str_eqb_refl, ?Hu, ?Hf, <- ?app_assoc; try reflexivity.
Qed.

Lemma toggle_cells c w :
  fst (ThemeToggle.toggle c w) =
  {| ThemeToggle.theme := flip (ThemeService.theme (idb w));
     ThemeToggle.isLoading := false |}.
Proof. rewrite toggle_run. unfold toggled. now destruct (current_user w). Qed.

Lemma toggle_idb c w :
  idb (snd (ThemeToggle.toggle c w)) =
  with_theme (flip (ThemeService.theme (idb w))) (idb w).
Proof.
  rewrite toggle_run. unfold toggled. destruct (current_user w); [|reflexivity].
  cbn [snd]. unfold emit_if.
  destruct (update_fails w), (toggle_caught _); reflexivity.
Qed.

(** The events of a click, in order. *)
Lemma toggle_trace c w :
  trace (snd (ThemeToggle.toggle c w)) =
  trace w ++ themechange ::
  match current_user w with
  | None => []
  | Some u =>
      (if toggle_caught (lookup (lit "display_preferences") (fields u))
       then [console_error "Error parsing display preferences:"] else [])
      ++ updateFields_called USERS (user_id u)
           (toggle_data (flip (ThemeService.theme (idb w))) u)
         :: (if update_fails w
             then [console_error "Error updating user preferences:"] else [])
  end.
Proof.
  rewrite toggle_run. unfold toggled, toggle_data.
  destruct (current_user w) as [u|]; [|reflexivity].
  cbn [snd]. unfold emit_if.
  destruct (update_fails w), (toggle_caught _);
    cbn [trace emit set_current_user extend set_idb app];
    rewrite <- ?app_assoc; reflexivity.
Qed.

Lemma toggle_current_user c w :
  current_user (snd (ThemeToggle.toggle c w)) =
  match current_user w with
  | None => None
  | Some u =>
      Some (if update_fails w then u
            else merge (toggle_data (flip (ThemeService.theme (idb w))) u) u)
  end.
Proof.
  rewrite toggle_run. unfold toggled, toggle_data.
  destruct (current_user w) as [u|] eqn:Hu; [|exact Hu].
  cbn [snd]. unfold emit_if.
  destruct (update_fails w), (toggle_caught _);
    cbn [current_user emit set_current_user extend set_idb]; auto.
Qed.

Lemma lookup_merge_toggle_data t u :
  lookup (lit "display_preferences") (fields (merge (toggle_data t u) u)) =
  Some (VString (JSON_stringify
          (VObject (toggled_preferences t
                      (lookup (lit "display_preferences") (fields u)))))).
Proof. unfold merge, toggle_data. cbn [fields fold_left fst snd]. apply lookup_define_same. Qed.


(** The object a click serializes when the field cannot be used. *)
Lemma toggled_preferences_unusable t field :
  (ThemeToggle.nonempty_string field = None
   \/ exists text e,
        ThemeToggle.nonempty_string field = Some text
        /\ JSON_parse text = Abrupt e) ->
  toggled_preferences t field =
  [(lit "theme", VString (theme_string t));
   (lit "fontSize", VString (fontSize_string medium))]
  /\ (toggle_caught field = true <-> ThemeToggle.nonempty_string field <> None).
Proof.
  unfold toggled_preferences, toggle_caught.
  intros [Hn|(text & e & Hn & Hp)]; rewrite Hn, ?Hp; split; try reflexivity;
    split; congruence.
Qed.

Lemma loadTheme_run c w :
  ThemeToggle.loadTheme (c, w) =
  (Normal tt,
   ({| ThemeToggle.theme := ThemeService.theme (idb w);
       ThemeToggle.isLoading := ThemeToggle.isLoading c |}, w)).
Proof. reflexivity. Qed.



(** A list of events that are all [console.error] calls or remote writes. *)
Ltac events :=
  repeat match goal with
         | |- Forall _ (_ ++ _) => apply Forall_app; split
         | |- Forall _ (if ?b then _ else _) => destruct b
         | |- Forall _ [] => constructor
         | |- Forall _ (_ :: _) => constructor
         end.

End RunFacts.


(* ===================================================================== *)
(** * Loading the settings form                                           *)
(* ===================================================================== *)

Module Loading.
Import JS ThemeService Runtime Observe DisplaySettings Summary.
Import JSFacts HandlerFacts Reconciliation RunFacts.

(** X1. When nobody is signed in, [loadPreferences] (lines 28 to 114)
    copies the record of the Local Preference Store into the form and does
    nothing else: the form shows the stored theme, font size and two
    accessibility options, [currentSettings] is the stored record, there
    are no unsaved changes, and the world (both stores and the events) is
    as it was. *)
Theorem mount_signed_out_shows_store w :
  current_user w = None -> mount w = (loaded (idb w), w).
Proof.
  intros Hu. rewrite mount_run. unfold mounted.
  destruct (current_user w); [discriminate|reflexivity].
Qed.

Lemma mount_signed_out_shows_store_witness :
  let w := {| idb := stored light large true false; current_user := None;
              put_fails := false; update_fails := false; clock := 0; trace := [] |} in
  mount w = (loaded (stored light large true false), w).
Proof. intros w. apply (@mount_signed_out_shows_store w eq_refl). Defined.

(** X2. [needsDisplayPrefsUpdate] stays [false] (lines 52 to 77) exactly
    when [display_preferences] is a string that is not blank, whose text
    parses, and whose parsed value has a [theme] that is the string
    [light] or [dark]. In every other case the field is flagged to be
    written back. *)
Theorem display_preferences_kept_iff w u :
  needsDisplayPrefsUpdate w u = false <->
  exists text v t,
    nonblank_string (lookup (lit "display_preferences") (fields u)) = Some text
    /\ JSON_parse text = Normal v
    /\ get v (lit "theme") = Normal (Some (VString (theme_string t))).
Proof.
  rewrite needsDisplayPrefsUpdate_flag. unfold display_flag, readable. split.
  - destruct (nonblank_string _) as [text|]; [|discriminate].
    destruct (JSON_parse text) as [v|e] eqn:Hp; [|discriminate].
    destruct v; try discriminate; cbn [prop];
      try (cbn; discriminate).
    destruct (includes_theme (lookup (lit "theme") ps)) as [t|] eqn:E;
      [|discriminate].
    intros _. apply includes_theme_string in E.
    exists text, (VObject ps), t. cbn [get]. rewrite E. auto.
  - intros (text & v & t & Hn & Hp & Hg). rewrite Hn, Hp.
    apply get_prop in Hg as [Hprop Hv].
    destruct v; try congruence; rewrite Hprop;
      now rewrite (proj2 (includes_theme_string _ t) eq_refl).
Qed.

(** X3. [needsAccessibilityUpdate] stays [false] (lines 80 to 103) exactly
    when [accessibility_settings] is a string that is not blank and whose
    text parses to a value other than [null]: no property of the parsed
    value is required, so the text of a number, of an array or of an empty
    object is kept as it is. *)
Theorem accessibility_settings_kept_iff w u :
  needsAccessibilityUpdate w u = false <->
  exists text v,
    nonblank_string (lookup (lit "accessibility_settings") (fields u)) = Some text
    /\ JSON_parse text = Normal v
    /\ v <> VNull.
Proof.
  rewrite needsAccessibilityUpdate_flag. unfold accessibility_flag, readable. split.
  - destruct (nonblank_string _) as [text|]; [|discriminate].
    destruct (JSON_parse text) as [v|e] eqn:Hp; [|discriminate].
    destruct v; try discriminate; intros _; do 2 eexists; repeat split; eauto;
      discriminate.
  - intros (text & v & Hn & Hp & Hv). rewrite Hn, Hp. destruct v; congruence.
Qed.

(** X4. A [display_preferences] text that parses to a value without a
    [theme] keeps the stored theme in the form and is flagged (lines 57 to
    64). A truthy [fontSize] of the same value that differs from the
    stored one is still taken into the form (lines 66 to 70), and the
    write-back, when it is accepted, replaces the field of the profile by
    the default preferences, so that the font size the form took from the
    profile is no longer in the profile. *)
Theorem themeless_display_preferences_flagged w u text v :
  current_user w = Some u ->
  nonblank_string (lookup (lit "display_preferences") (fields u)) = Some text ->
  JSON_parse text = Normal v ->
  get v (lit "theme") = Normal None ->
  theme (fst (mount w)) = ThemeService.theme (idb w)
  /\ needsDisplayPrefsUpdate w u = true
  /\ (forall x,
        get v (lit "fontSize") = Normal (Some x) ->
        truthy x = true ->
        differs (Some x) (ThemeService.fontSize (idb w)) = true ->
        fontSize (fst (mount w)) = x
        /\ (update_fails w = false ->
            exists u',
              current_user (snd (mount w)) = Some u'
              /\ lookup (lit "display_preferences") (fields u') =
                 Some default_display_preferences)).
Proof.
  intros Hu Hn Hp Hg.
  pose proof (@get_prop _ _ _ Hg) as [Hprop Hv].
  assert (Hflag : display_flag (lookup (lit "display_preferences") (fields u)) = true).
  { unfold display_flag. rewrite (@readable_parsed _ _ _ Hn Hp Hv).
    now rewrite Hprop. }
  split; [|split].
  - rewrite (@mount_cells _ _ Hu). unfold reconciled. cbn [theme].
    rewrite (@display_part_parsed (idb w) _ _ _ _ _ Hn Hp Hg). cbn [fst].
    now rewrite Hprop.
  - now rewrite needsDisplayPrefsUpdate_flag.
  - intros x Hx Ht Hd. split.
    + exact (@mount_fontSize_applied w u text v x Hu Hn Hp Hx Ht Hd).
    + intros Hf. rewrite (@mount_current_user _ _ Hu). cbv zeta.
      rewrite Hflag, Hf. cbn [orb andb negb]. eexists. split; [reflexivity|].
      now rewrite lookup_display_merge_seeded.
Qed.

Lemma themeless_display_preferences_flagged_witness :
  let u := alice [(lit "display_preferences", VString (json_lit "{'fontSize':'large'}"))] in
  let w := healthy (stored light small false false) u 0 [] in
  fontSize (fst (mount w)) = VString (lit "large")
  /\ exists u',
       current_user (snd (mount w)) = Some u'
       /\ lookup (lit "display_preferences") (fields u') =
          Some (VString (json_lit "{'theme':'dark','fontSize':'medium'}")).
Proof.
  intros u w.
  destruct (@themeless_display_preferences_flagged w u
              (json_lit "{'fontSize':'large'}")
              (VObject [(lit "fontSize", VString (lit "large"))])
              eq_refl eq_refl eq_refl eq_refl) as (_ & _ & H).
  destruct (H (VString (lit "large")) eq_refl eq_refl eq_refl) as [Hf Hu].
  split; [exact Hf|exact (Hu eq_refl)].
Defined.

(** X5. When [display_preferences] is absent, not a string or blank, or
    is a text that does not parse or parses to [null], the form keeps the
    stored theme and font size and the field is flagged (lines 71 to 77).
    [console.error] is called with the display message once when the
    field was a text that is not blank (the [catch] of line 71, which a
    [null] reaches through the property read of line 57) and not at all
    when there was no text to parse. *)
Theorem unreadable_display_preferences_keep_stored w u :
  current_user w = Some u ->
  (nonblank_string (lookup (lit "display_preferences") (fields u)) = None
   \/ exists text,
        nonblank_string (lookup (lit "display_preferences") (fields u)) = Some text
        /\ (JSON_parse text = Normal VNull \/ exists e, JSON_parse text = Abrupt e)) ->
  theme (fst (mount w)) = ThemeService.theme (idb w)
  /\ fontSize (fst (mount w)) = ThemeService.fontSize (idb w)
  /\ needsDisplayPrefsUpdate w u = true
  /\ exists rest,
       trace (snd (mount w)) =
       trace w
       ++ (if is_some (nonblank_string (lookup (lit "display_preferences") (fields u)))
           then [console_error "Error parsing display preferences:"] else [])
       ++ rest
       /\ ~ In (console_error "Error parsing display preferences:") rest.
Proof.
  intros Hu Hbad.
  assert (Hr : readable (lookup (lit "display_preferences") (fields u)) = None
               /\ caught (lookup (lit "display_preferences") (fields u)) =
                  is_some (nonblank_string
                             (lookup (lit "display_preferences") (fields u)))).
  { unfold readable, caught.
    destruct Hbad as [Hn|(text & Hn & [Hp|[e Hp]])]; rewrite Hn, ?Hp; auto. }
  destruct Hr as [Hr Hc].
  assert (Hflag : display_flag (lookup (lit "display_preferences") (fields u)) = true).
  { unfold display_flag. now rewrite Hr. }
  rewrite (@mount_cells _ _ Hu). unfold reconciled, display_part. rewrite Hr.
  cbn [theme fontSize fst snd chosen].
  repeat split.
  - now rewrite needsDisplayPrefsUpdate_flag.
  - rewrite (@mount_trace _ _ Hu). cbv zeta. rewrite Hc, Hflag. cbn [orb].
    eexists. split; [reflexivity|].
    intros Hin. apply in_app_or in Hin as [Hin|Hin].
    + destruct (caught (lookup (lit "accessibility_settings") (fields u)));
        [destruct Hin as [Hin|[]]; discriminate|destruct Hin].
    + destruct Hin as [Hin|Hin]; [discriminate|].
      destruct (update_fails w); [destruct Hin as [Hin|[]]; discriminate|destruct Hin].
Qed.

Lemma unreadable_display_preferences_keep_stored_witness :
  let u := alice [(lit "display_preferences", VString (json_lit "{'theme':'light'"))] in
  let w := healthy (stored dark large false false) u 0 [] in
  theme (fst (mount w)) = dark
  /\ fontSize (fst (mount w)) = VString (lit "large")
  /\ needsDisplayPrefsUpdate w u = true.
Proof.
  intros u w.
  destruct (@unreadable_display_preferences_keep_stored w u eq_refl) as (Ht & Hf & Hn & _).
  - right. exists (json_lit "{'theme':'light'"). split; [reflexivity|].
    right. exists SyntaxError. reflexivity.
  - split; [exact Ht|split; [exact Hf|exact Hn]].
Defined.

(** X6. Whatever the stores hold, a run of [loadPreferences] (with
    [initializeDefaultSettings], lines 28 to 161) only adds [console.error]
    calls and remote writes to the [USERS] collection to the events, and
    at most one remote write: it never writes to the Local Preference
    Store and never shows a notification. *)
Theorem mount_only_logs_and_writes_back_once w :
  exists new,
    trace (snd (mount w)) = trace w ++ new
    /\ Forall (fun e => (exists message, e = console_error message)
                        \/ exists record_id data,
                             e = updateFields_called USERS record_id data) new
    /\ (List.length (remote_writes new) <= 1)%nat.
Proof.
  destruct (current_user w) as [u|] eqn:Hu.
  - rewrite (@mount_trace _ _ Hu). cbv zeta. eexists. split; [reflexivity|].
    split.
    + events;
        first [left; eexists; reflexivity|right; do 2 eexists; reflexivity].
    + rewrite !remote_writes_app.
      repeat match goal with |- context [if ?b then _ else _] => destruct b end;
        cbn; lia.
  - rewrite (@mount_signed_out _ Hu). exists []. cbn.
    rewrite app_nil_r. repeat split; auto.
Qed.

(** X7. When a field is flagged and the remote write of
    [initializeDefaultSettings] is rejected, the rejection is caught
    (lines 158 to 160): the events of the run end with the attempted write
    and one [console.error], the profile is as it was, and the form holds
    what reconciliation computed. As nothing was repaired, the next load
    attempts the same write again. *)
Theorem rejected_write_back_logged_and_retried w u :
  current_user w = Some u ->
  update_fails w = true ->
  needsDisplayPrefsUpdate w u || needsAccessibilityUpdate w u = true ->
  let w1 := snd (mount w) in
  let attempt :=
    updateFields_called USERS (user_id u)
      (seeded (needsDisplayPrefsUpdate w u) (needsAccessibilityUpdate w u)) in
  (exists before,
     trace w1 =
     trace w ++ before
     ++ [attempt; console_error "Error initializing default settings:"]
     /\ Forall (fun e => exists message, e = console_error message) before)
  /\ current_user w1 = Some u
  /\ fst (mount w) =
     reconciled (idb w) (lookup (lit "display_preferences") (fields u))
       (lookup (lit "accessibility_settings") (fields u))
  /\ remote_writes (trace (snd (mount w1))) =
     remote_writes (trace w1)
     ++ [(user_id u,
          seeded (needsDisplayPrefsUpdate w u) (needsAccessibilityUpdate w u))].
Proof.
  intros Hu Hf Hflag w1 attempt. unfold attempt.
  rewrite needsDisplayPrefsUpdate_flag, needsAccessibilityUpdate_flag in *.
  assert (Hu1 : current_user w1 = Some u).
  { unfold w1. rewrite (@mount_current_user _ _ Hu). cbv zeta. rewrite Hf.
    now rewrite andb_false_r. }
  split; [|split; [exact Hu1|split; [apply (@mount_cells _ _ Hu)|]]].
  - unfold w1. rewrite (@mount_trace _ _ Hu). cbv zeta. rewrite Hflag, Hf.
    exists ((if caught (lookup (lit "display_preferences") (fields u))
             then [console_error "Error parsing display preferences:"] else [])
            ++ (if caught (lookup (lit "accessibility_settings") (fields u))
                then [console_error "Error parsing accessibility settings:"] else [])).
    split.
    + now rewrite <- !app_assoc.
    + events; eexists; reflexivity.
  - rewrite (@mount_remote_writes _ _ Hu1). cbv zeta. now rewrite Hflag.
Qed.

Lemma rejected_write_back_logged_and_retried_witness :
  let u := alice [] in
  let w := {| idb := stored light small false false; current_user := Some u;
              put_fails := false; update_fails := true; clock := 0; trace := [] |} in
  trace (snd (mount w)) =
    [updateFields_called USERS (lit "alice") (seeded true true);
     console_error "Error initializing default settings:"]
  /\ current_user (snd (mount w)) = Some u
  /\ remote_writes (trace (snd (mount (snd (mount w))))) =
     [(lit "alice", seeded true true); (lit "alice", seeded true true)].
Proof.
  intros u w.
  destruct (@rejected_write_back_logged_and_retried w u eq_refl eq_refl eq_refl)
    as (_ & Hu & _ & Hr).
  split; [reflexivity|split; [exact Hu|exact Hr]].
Defined.

(** X8. The [fontSize] of the profile is taken into the form without a
    check against the four sizes (lines 66 to 70), and [handleSubmit]
    stores the form as it is (lines 213 to 220). When that [fontSize] is a
    truthy string or number that differs from the stored one, then after a
    load and a save that both stores accept, the Local Preference Store
    holds it, whether or not it is one of the four sizes (the number 72,
    for instance); the record in [currentSettings] holds it too, and the
    form counts it as saved. *)
Theorem unvalidated_fontSize_reaches_store store u now past text v x :
  nonblank_string (lookup (lit "display_preferences") (fields u)) = Some text ->
  JSON_parse text = Normal v ->
  get v (lit "fontSize") = Normal (Some x) ->
  string_or_number x = true ->
  truthy x = true ->
  differs (Some x) (ThemeService.fontSize store) = true ->
  let loaded_ := mount (healthy store u now past) in
  let saved_ := save (fst loaded_) (snd loaded_) in
  ThemeService.fontSize (idb (snd saved_)) = x
  /\ (exists current,
        currentSettings (fst saved_) = Some current
        /\ ThemeService.fontSize current = x)
  /\ hasChanges (fst saved_) = false.
Proof.
  intros Hn Hp Hg _ Ht Hd loaded_ saved_.
  set (w := healthy store u now past) in *.
  assert (Hu : current_user w = Some u) by reflexivity.
  pose proof (@mount_fontSize_applied w u text v x Hu Hn Hp Hg Ht Hd) as Hfs.
  fold loaded_ in Hfs.
  pose proof (@mount_current_user _ _ Hu) as Hu1. cbv zeta in Hu1.
  fold loaded_ in Hu1.
  destruct (mount_flags w) as (Hpf & Huf & Hck). fold loaded_ in Hpf, Huf, Hck.
  unfold saved_. rewrite save_run. unfold saved. rewrite Hu1, Hpf, Huf.
  cbn [put_fails update_fails healthy w fst snd idb extend set_current_user set_idb
       currentSettings hasChanges record_of ThemeService.fontSize].
  split; [exact Hfs|]. split; [|reflexivity].
  eexists. split; [reflexivity|exact Hfs].
Qed.

Lemma unvalidated_fontSize_reaches_store_witness :
  let u := alice [(lit "display_preferences",
                   VString (json_lit "{'theme':'dark','fontSize':72}"))] in
  let loaded_ := mount (healthy (stored dark medium false false) u 0 []) in
  ThemeService.fontSize (idb (snd (save (fst loaded_) (snd loaded_)))) =
  VNumber (S754_finite false 5066549580791808 (-46)).
Proof.
  intros u loaded_.
  apply (@unvalidated_fontSize_reaches_store (stored dark medium false false) u 0 []
           (json_lit "{'theme':'dark','fontSize':72}")
           (VObject [(lit "theme", VString (lit "dark"));
                     (lit "fontSize", VNumber (S754_finite false 5066549580791808 (-46)))])
           (VNumber (S754_finite false 5066549580791808 (-46)))
           eq_refl eq_refl eq_refl eq_refl eq_refl eq_refl).
Defined.

(** X9. When both fields of the profile parse and hold a theme of the
    two, a font size of the four and two booleans, the form shows exactly
    the four values of the profile, whatever the Local Preference Store
    holds; [hasChanges] is [false] exactly when the store already holds
    the same four values; and the run changes nothing in the world: no
    write, no event. *)
Theorem valid_profile_becomes_working_state w u dtext dv atext av t f cb rm :
  current_user w = Some u ->
  nonblank_string (lookup (lit "display_preferences") (fields u)) = Some dtext ->
  JSON_parse dtext = Normal dv ->
  get dv (lit "theme") = Normal (Some (VString (theme_string t))) ->
  get dv (lit "fontSize") = Normal (Some (VString (fontSize_string f))) ->
  nonblank_string (lookup (lit "accessibility_settings") (fields u)) = Some atext ->
  JSON_parse atext = Normal av ->
  get av (lit "colorBlindMode") = Normal (Some (VBool cb)) ->
  get av (lit "reducedMotion") = Normal (Some (VBool rm)) ->
  let c := fst (mount w) in
  theme c = t
  /\ fontSize c = VString (fontSize_string f)
  /\ colorBlindMode c = cb
  /\ reducedMotion c = rm
  /\ (hasChanges c = false <->
      ThemeService.theme (idb w) = t
      /\ ThemeService.fontSize (idb w) = VString (fontSize_string f)
      /\ ThemeService.colorBlindMode (idb w) = cb
      /\ ThemeService.reducedMotion (idb w) = rm)
  /\ snd (mount w) = w.
Proof.
  intros Hu Hdn Hdp Hdt Hdf Han Hap Hac Har c. unfold c.
  rewrite (@mount_cells _ _ Hu). unfold reconciled.
  rewrite (@display_part_parsed (idb w) _ _ _ _ _ Hdn Hdp Hdt).
  rewrite (@accessibility_part_parsed (idb w) _ _ _ _ _ Han Hap Hac).
  pose proof (@get_prop _ _ _ Hdt) as [Ht Hdv].
  pose proof (@get_prop _ _ _ Hdf) as [Hf _].
  pose proof (@get_prop _ _ _ Hac) as [Hc Hav].
  pose proof (@get_prop _ _ _ Har) as [Hr _].
  rewrite Ht, Hf, Hc, Hr.
  cbn [theme fontSize colorBlindMode reducedMotion hasChanges fst snd].
  destruct (chosen_new_theme (ThemeService.theme (idb w)) t) as [T1 T2].
  destruct (chosen_new_fontSize (ThemeService.fontSize (idb w)) f) as [F1 F2].
  destruct (chosen_new_boolean (ThemeService.colorBlindMode (idb w)) cb) as [C1 C2].
  destruct (chosen_new_boolean (ThemeService.reducedMotion (idb w)) rm) as [R1 R2].
  split; [exact T1|]. split; [exact F1|]. split; [exact C1|]. split; [exact R1|].
  split.
  - rewrite !orb_false_iff, T2, F2, C2, R2. tauto.
  - rewrite mount_run. unfold mounted. rewrite Hu. cbn [snd].
    unfold display_flag, accessibility_flag.
    rewrite (@readable_caught _ _ (@readable_parsed _ _ _ Hdn Hdp Hdv)).
    rewrite (@readable_caught _ _ (@readable_parsed _ _ _ Han Hap Hav)).
    rewrite (@readable_parsed _ _ _ Hdn Hdp Hdv), (@readable_parsed _ _ _ Han Hap Hav).
    rewrite Ht. rewrite (proj2 (includes_theme_string _ t) eq_refl). reflexivity.
Qed.

Lemma valid_profile_becomes_working_state_witness :
  let u := alice [(lit "display_preferences",
                   VString (json_lit "{'theme':'light','fontSize':'extra-large'}"));
                  (lit "accessibility_settings",
                   VString (json_lit "{'colorBlindMode':true,'reducedMotion':false}"))] in
  let w := healthy (stored dark small false false) u 0 [] in
  theme (fst (mount w)) = light
  /\ fontSize (fst (mount w)) = VString (lit "extra-large")
  /\ colorBlindMode (fst (mount w)) = true
  /\ reducedMotion (fst (mount w)) = false
  /\ snd (mount w) = w.
Proof.
  intros u w.
  destruct (@valid_profile_becomes_working_state w u
              (json_lit "{'theme':'light','fontSize':'extra-large'}")
              (VObject [(lit "theme", VString (lit "light"));
                        (lit "fontSize", VString (lit "extra-large"))])
              (json_lit "{'colorBlindMode':true,'reducedMotion':false}")
              (VObject [(lit "colorBlindMode", VBool true);
                        (lit "reducedMotion", VBool false)])
              light extra_large true false
              eq_refl eq_refl eq_refl eq_refl eq_refl eq_refl eq_refl eq_refl eq_refl)
    as (Ht & Hf & Hc & Hr & _ & Hw).
  split; [exact Ht|split; [exact Hf|split; [exact Hc|split; [exact Hr|exact Hw]]]].
Defined.

End Loading.


(* ===================================================================== *)
(** * Submitting and editing the settings form                            *)
(* ===================================================================== *)

Module Submitting.
Import JS ThemeService Runtime Observe DisplaySettings Summary.
Import JSFacts HandlerFacts Reconciliation Saving RunFacts.

(** X10. When nobody is signed in, [handleSubmit] stops at line 198,
    before either write: the form and [hasChanges] are kept, [saving] is
    [false] again, both stores are as they were, and the only events are
    the [console.error] and the failure notification of lines 248 and
    249. *)
Theorem save_signed_out_writes_nothing c w :
  current_user w = None ->
  save c w = (idle c, extend failure_notice w).
Proof. intros Hu. rewrite save_run. unfold saved. now rewrite Hu. Qed.

Lemma save_signed_out_writes_nothing_witness :
  let c := form light (VString (lit "large")) true false first_render in
  let w := {| idb := stored dark medium false false; current_user := None;
              put_fails := false; update_fails := false; clock := 5; trace := [] |} in
  idb (snd (save c w)) = stored dark medium false false
  /\ trace (snd (save c w)) = failure_notice
  /\ fst (save c w) = idle c.
Proof.
  intros c w. rewrite (@save_signed_out_writes_nothing c w eq_refl).
  repeat split.
Defined.

(** X11. A save by a signed-in user that both stores accept adds three
    events, in this order: the local write of the record made from the
    form with the fixed identifier and the time read at line 219, the
    remote write of the two serialized fields to the record of the user,
    and the success notification. Afterwards the Local Preference Store
    holds that record; [currentSettings] holds a record made from the same
    form, with the time read at line 239 after both writes; [hasChanges]
    and [saving] are [false]; the two fields of the profile are the
    serialized form, and every other field of the profile is as it was. *)
Theorem successful_save_updates_both_stores c store u now past :
  let final := save c (healthy store u now past) in
  trace (snd final) =
    past ++ [saveThemeSettings_called (record_of c now);
             updateFields_called USERS (user_id u) (profile_of c);
             toast_success "Display settings saved successfully!"]
  /\ idb (snd final) = record_of c now
  /\ (exists later,
        fst final =
        {| currentSettings := Some (record_of c later);
           theme := theme c; fontSize := fontSize c;
           colorBlindMode := colorBlindMode c; reducedMotion := reducedMotion c;
           saving := false; hasChanges := false |})
  /\ exists u',
       current_user (snd final) = Some u'
       /\ user_id u' = user_id u
       /\ lookup (lit "display_preferences") (fields u') =
          Some (VString (JSON_stringify
                  (displayPreferences_of (theme c) (fontSize c))))
       /\ lookup (lit "accessibility_settings") (fields u') =
          Some (VString (JSON_stringify
                  (accessibilitySettings_of (colorBlindMode c) (reducedMotion c))))
       /\ forall k,
            k <> lit "display_preferences" ->
            k <> lit "accessibility_settings" ->
            lookup k (fields u') = lookup k (fields u).
Proof.
  intros final. unfold final. rewrite save_run. unfold saved, healthy.
  cbn [current_user put_fails update_fails fst snd clock trace idb extend
       set_current_user set_idb tick].
  split; [reflexivity|]. split; [reflexivity|].
  split; [eexists; reflexivity|].
  exists (merge (profile_of c) u). repeat split.
  - apply lookup_display_merge_profile.
  - apply lookup_accessibility_merge_profile.
  - intros k Hd Ha. apply lookup_merge_profile_other; now apply str_eqb_neq.
Qed.

(** X12. Whatever happens in [handleSubmit], the four values of the form
    are left as they were and [saving] ends [false] (the [finally] of line
    250). [hasChanges], [currentSettings] and the profile change only when
    a user is signed in and both writes are accepted, and then the Local
    Preference Store holds the record made from the form. *)
Theorem save_keeps_form_and_clears_saving c w :
  let final := save c w in
  theme (fst final) = theme c
  /\ fontSize (fst final) = fontSize c
  /\ colorBlindMode (fst final) = colorBlindMode c
  /\ reducedMotion (fst final) = reducedMotion c
  /\ saving (fst final) = false
  /\ (hasChanges (fst final) <> hasChanges c
      \/ currentSettings (fst final) <> currentSettings c
      \/ current_user (snd final) <> current_user w ->
      exists u,
        current_user w = Some u /\ put_fails w = false /\ update_fails w = false
        /\ idb (snd final) = record_of c (clock w)).
Proof.
  intros final. unfold final. rewrite save_run. unfold saved.
  destruct (current_user w) as [u|] eqn:Hu.
  2: { cbn. rewrite Hu. repeat split. intros [H|[H|H]]; congruence. }
  destruct (put_fails w) eqn:Hp.
  { cbn. rewrite Hu. repeat split. intros [H|[H|H]]; congruence. }
  destruct (update_fails w) eqn:Hf.
  { cbn. rewrite Hu. repeat split. intros [H|[H|H]]; congruence. }
  cbn. repeat split. intros _. exists u. auto.
Qed.

(** X16. After [handleSubmit], the button that submits the form (line
    347) is disabled when a user was signed in and both writes were
    accepted; in every other case it is disabled exactly when the form had
    no unsaved changes before, so a failed save can be tried again. *)
Theorem submit_button_after_save c w :
  let accepted :=
    is_some (current_user w) && negb (put_fails w) && negb (update_fails w) in
  submitDisabled (fst (save c w)) =
  if accepted then true else negb (hasChanges c).
Proof.
  cbv zeta. rewrite save_run. unfold saved, submitDisabled.
  destruct (current_user w); [|reflexivity].
  destruct (put_fails w); [reflexivity|].
  destruct (update_fails w); reflexivity.
Qed.

End Submitting.

Module Editing.
Import JS ThemeService Runtime Observe DisplaySettings Summary.
Import JSFacts HandlerFacts Reconciliation Saving RunFacts.

(** X13. The four controls change the form only (lines 164 to 189): after
    a theme, a font size and the two options are chosen, in this order,
    the world is as it was. A save of the resulting form by a signed-in
    user that both stores accept then stores exactly the four chosen
    values: the Local Preference Store holds them with the time read
    before the writes, [currentSettings] holds them with the time read
    after the writes, there are no unsaved changes, and the two fields of
    the profile are texts that parse to them. *)
Theorem chosen_values_are_saved c store u now past t f cb rm :
  let w := healthy store u now past in
  let s1 := edit (handleThemeChange t) c w in
  let s2 := edit (handleFontSizeChange f) (fst s1) (snd s1) in
  let s3 := edit (handleColorBlindModeChange cb) (fst s2) (snd s2) in
  let s4 := edit (handleReducedMotionChange rm) (fst s3) (snd s3) in
  let final := save (fst s4) (snd s4) in
  snd s4 = w
  /\ idb (snd final) =
     {| id := lit "current"; ThemeService.theme := t;
        ThemeService.fontSize := VString (fontSize_string f);
        ThemeService.colorBlindMode := cb; ThemeService.reducedMotion := rm;
        updatedAt := now |}
  /\ (exists later,
        currentSettings (fst final) =
        Some {| id := lit "current"; ThemeService.theme := t;
                ThemeService.fontSize := VString (fontSize_string f);
                ThemeService.colorBlindMode := cb;
                ThemeService.reducedMotion := rm;
                updatedAt := later |})
  /\ hasChanges (fst final) = false
  /\ exists u1 display accessibility,
       current_user (snd final) = Some u1
       /\ lookup (lit "display_preferences") (fields u1) = Some (VString display)
       /\ JSON_parse display =
          Normal (displayPreferences_of t (VString (fontSize_string f)))
       /\ lookup (lit "accessibility_settings") (fields u1) =
          Some (VString accessibility)
       /\ JSON_parse accessibility = Normal (accessibilitySettings_of cb rm).
Proof.
  intros w s1 s2 s3 s4 final.
  assert (Hs4 : s4 = (form t (VString (fontSize_string f)) cb rm c, w)).
  { reflexivity. }
  unfold final. rewrite Hs4. cbn [fst snd].
  set (settings := form t (VString (fontSize_string f)) cb rm c).
  rewrite save_run. unfold saved, w, healthy.
  cbn [current_user put_fails update_fails fst snd clock trace idb extend
       set_current_user set_idb currentSettings hasChanges tick].
  split; [reflexivity|]. split; [reflexivity|].
  split; [eexists; reflexivity|]. split; [reflexivity|].
  exists (merge (profile_of settings) u). do 2 eexists.
  split; [reflexivity|].
  split; [apply lookup_display_merge_profile|].
  split; [apply display_roundtrip|].
  split; [apply lookup_accessibility_merge_profile|apply accessibility_roundtrip].
Qed.

(** X14. The effect of lines 120 to 134, run on a render whose
    [currentSettings] holds a string as font size, leaves the four values
    of the form, [currentSettings], [saving] and the world as they are and
    sets [hasChanges] to [false] exactly when the theme, the font size and
    the two options of the form are those of [currentSettings]: choosing
    the saved values again clears the flag. *)
Theorem effect_tracks_difference c w current s :
  currentSettings c = Some current ->
  ThemeService.fontSize current = VString s ->
  exists c',
    rendered c w = Some (c', w)
    /\ theme c' = theme c
    /\ fontSize c' = fontSize c
    /\ colorBlindMode c' = colorBlindMode c
    /\ reducedMotion c' = reducedMotion c
    /\ currentSettings c' = currentSettings c
    /\ saving c' = saving c
    /\ (hasChanges c' = false <->
        theme c = ThemeService.theme current
        /\ fontSize c = ThemeService.fontSize current
        /\ colorBlindMode c = ThemeService.colorBlindMode current
        /\ reducedMotion c = ThemeService.reducedMotion current).
Proof.
  intros Hc Hs. unfold rendered, checkForChanges, changed. rewrite Hc, Hs.
  rewrite strict_eq_string_r. cbn [setHasChanges modify snd fst].
  eexists. split; [reflexivity|].
  cbn [theme fontSize colorBlindMode reducedMotion currentSettings saving hasChanges].
  repeat split; auto; rewrite !orb_false_iff, !negb_false_eq, theme_eqb_eq,
    strict_eqb_string_r, !eqb_true_eq in *; tauto.
Qed.

Lemma effect_tracks_difference_witness :
  let current := stored dark medium false false in
  let c := {| currentSettings := Some current; theme := dark;
              fontSize := VString (lit "medium"); colorBlindMode := false;
              reducedMotion := false; saving := false; hasChanges := true |} in
  let w := healthy current (alice []) 0 [] in
  exists c', rendered c w = Some (c', w) /\ hasChanges c' = false.
Proof.
  intros current c w.
  destruct (@effect_tracks_difference c w current (lit "medium") eq_refl eq_refl)
    as (c' & Hr & _ & _ & _ & _ & _ & _ & Hh).
  exists c'. split; [exact Hr|]. apply Hh. repeat split.
Defined.

(** X15. [loadPreferences] sets [hasChanges] itself, once for each value
    it takes from the profile (lines 60, 69, 88 and 95), and the effect of
    lines 120 to 134 computes it again from the cells. When the stored
    font size is a string the two agree: the effect, run on the cells a
    load leaves, leaves them as they are, [hasChanges] included. *)
Theorem effect_agrees_with_mount w s :
  ThemeService.fontSize (idb w) = VString s ->
  rendered (fst (mount w)) (snd (mount w)) = Some (mount w).
Proof.
  intros Hs. rewrite mount_run. unfold mounted.
  destruct (current_user w) as [u|].
  - cbn [fst snd]. unfold rendered, checkForChanges, changed, reconciled.
    cbn [currentSettings theme fontSize colorBlindMode reducedMotion].
    unfold display_part, accessibility_part.
    destruct (readable (lookup (lit "display_preferences") (fields u))) as [dv|];
      destruct (readable (lookup (lit "accessibility_settings") (fields u))) as [av|];
      cbn [fst snd]; rewrite Hs;
      rewrite ?new_theme_changes, ?new_fontSize_changes, ?new_boolean_changes;
      cbn [chosen is_some]; rewrite ?theme_eqb_refl, ?bool_eqb_refl;
      cbn [strict_eq strict_eqb]; rewrite ?str_eqb_refl, ?negb_involutive;
      reflexivity.
  - cbn [fst snd]. unfold rendered, checkForChanges, changed, loaded.
    cbn [currentSettings theme fontSize colorBlindMode reducedMotion].
    rewrite Hs, theme_eqb_refl, !bool_eqb_refl. cbn [strict_eq strict_eqb].
    rewrite str_eqb_refl. reflexivity.
Qed.

Lemma effect_agrees_with_mount_witness :
  let u := alice [(lit "display_preferences",
                   VString (json_lit "{'theme':'light','fontSize':'large'}"))] in
  let w := healthy (stored dark large false false) u 0 [] in
  rendered (fst (mount w)) (snd (mount w)) = Some (mount w)
  /\ hasChanges (fst (mount w)) = true.
Proof.
  intros u w. split.
  - apply (@effect_agrees_with_mount w (lit "large") eq_refl).
  - reflexivity.
Defined.

End Editing.


(* ===================================================================== *)
(** * Clicking the theme toggle                                           *)
(* ===================================================================== *)

Module Clicking.
Import JS ThemeService Runtime Observe Summary themeUtils.
Import JSFacts HandlerFacts RunFacts.

(** X17. After any click on the toggle (lines 40 to 84), signed in or
    not, whatever the profile holds and whether or not the remote write is
    accepted: the toggle shows the theme the Local Preference Store now
    holds (lines 45 and 46), [isLoading] is [false] again (line 82), and
    the font size and the two accessibility options of the store are as
    they were. The click adds the theme-changed event, then only
    [console.error] calls and remote writes to the record of the signed-in
    user: at most one remote write, and none when nobody is signed in; no
    notification and no write through [saveThemeSettings]. *)
Theorem toggle_shows_stored_theme c w :
  let final := ThemeToggle.toggle c w in
  ThemeToggle.theme (fst final) = theme (idb (snd final))
  /\ ThemeToggle.isLoading (fst final) = false
  /\ fontSize (idb (snd final)) = fontSize (idb w)
  /\ colorBlindMode (idb (snd final)) = colorBlindMode (idb w)
  /\ reducedMotion (idb (snd final)) = reducedMotion (idb w)
  /\ exists new,
       trace (snd final) = trace w ++ themechange :: new
       /\ Forall (fun e => (exists message, e = console_error message)
                           \/ exists data,
                                option_map user_id (current_user w) =
                                  Some (fst data)
                                /\ e = updateFields_called USERS (fst data) (snd data))
            new
       /\ (List.length (remote_writes new) <= 1)%nat
       /\ (current_user w = None -> remote_writes new = []).
Proof.
  intros final. unfold final.
  rewrite toggle_cells, toggle_idb, toggle_trace.
  cbn [ThemeToggle.theme ThemeToggle.isLoading with_theme theme fontSize
       colorBlindMode reducedMotion].
  do 5 (split; [reflexivity|]).
  eexists. split; [reflexivity|].
  destruct (current_user w) as [u|]; cbn [is_some option_map].
  - split.
    + events;
        first [left; eexists; reflexivity
              |right; exists (user_id u, toggle_data (flip (theme (idb w))) u);
               split; reflexivity].
    + split; [|discriminate]. rewrite remote_writes_app.
      destruct (toggle_caught _), (update_fails w); cbn; lia.
  - split; [constructor|]. split; [cbn; lia|reflexivity].
Qed.

(** X18. When the [display_preferences] of the signed-in user is a text
    that parses to an object, a click sends that object with its [theme]
    set to the new theme of the store (lines 57 to 61): every other
    property of the object, the font size among them, is sent as it was,
    and the inner [catch] does not run. When the remote write is accepted,
    the profile holds the text of that object, and every other field of
    the profile is as it was. *)
Theorem toggle_keeps_other_preferences c w u text ps :
  current_user w = Some u ->
  ThemeToggle.nonempty_string (lookup (lit "display_preferences") (fields u)) =
    Some text ->
  JSON_parse text = Normal (VObject ps) ->
  let final := ThemeToggle.toggle c w in
  exists sent,
    remote_writes (trace (snd final)) =
    remote_writes (trace w)
    ++ [(user_id u,
         [(lit "display_preferences", VString (JSON_stringify (VObject sent)))])]
    /\ lookup (lit "theme") sent =
       Some (VString (theme_string (theme (idb (snd final)))))
    /\ (forall k, str_eqb k (lit "theme") = false -> lookup k sent = lookup k ps)
    /\ ~ In (console_error "Error parsing display preferences:")
           (skipn (List.length (trace w)) (trace (snd final)))
    /\ (update_fails w = false ->
        exists u',
          current_user (snd final) = Some u'
          /\ user_id u' = user_id u
          /\ lookup (lit "display_preferences") (fields u') =
             Some (VString (JSON_stringify (VObject sent)))
          /\ forall k, str_eqb k (lit "display_preferences") = false ->
               lookup k (fields u') = lookup k (fields u)).
Proof.
  intros Hu Hn Hp final. unfold final.
  rewrite toggle_idb, toggle_trace, toggle_current_user, Hu.
  assert (Hs : toggled_preferences (flip (theme (idb w)))
                 (lookup (lit "display_preferences") (fields u)) =
               define (lit "theme") (VString (theme_string (flip (theme (idb w))))) ps).
  { unfold toggled_preferences. now rewrite Hn, Hp. }
  assert (Hc : toggle_caught (lookup (lit "display_preferences") (fields u)) = false).
  { unfold toggle_caught. now rewrite Hn, Hp. }
  exists (define (lit "theme") (VString (theme_string (flip (theme (idb w))))) ps).
  rewrite Hc. unfold toggle_data. rewrite Hs. cbn [app with_theme theme].
  split; [|split; [|split; [|split]]].
  - rewrite remote_writes_app. cbn [remote_writes].
    now destruct (update_fails w).
  - apply lookup_define_same.
  - intros k Hk. now apply lookup_define_other.
  - rewrite skipn_app, skipn_all, Nat.sub_diag. cbn [skipn app].
    intros [H|[H|H]]; try discriminate.
    destruct (update_fails w); [destruct H as [H|[]]; discriminate|destruct H].
  - intros Hf. rewrite Hf. eexists. split; [reflexivity|].
    split; [reflexivity|]. split.
    + unfold merge. cbn [fields fold_left fst snd]. apply lookup_define_same.
    + intros k Hk. unfold merge. cbn [fields fold_left fst snd].
      now apply lookup_define_other.
Qed.

Lemma toggle_keeps_other_preferences_witness :
  let u := alice [(lit "display_preferences",
                   VString (json_lit "{'fontSize':'large','theme':'dark','density':3}"))] in
  let w := healthy (stored dark large false false) u 0 [] in
  exists sent,
    remote_writes (trace (snd (ThemeToggle.toggle
                                 {| ThemeToggle.theme := dark;
                                    ThemeToggle.isLoading := false |} w))) =
    [(lit "alice",
      [(lit "display_preferences", VString (JSON_stringify (VObject sent)))])]
    /\ lookup (lit "theme") sent = Some (VString (lit "light"))
    /\ lookup (lit "fontSize") sent = Some (VString (lit "large")).
Proof.
  intros u w.
  destruct (@toggle_keeps_other_preferences
              {| ThemeToggle.theme := dark; ThemeToggle.isLoading := false |} w u
              (json_lit "{'fontSize':'large','theme':'dark','density':3}")
              [(lit "fontSize", VString (lit "large"));
               (lit "theme", VString (lit "dark"));
               (lit "density", VNumber (S754_finite false 6755399441055744 (-51)))]
              eq_refl eq_refl eq_refl) as (sent & Hw & Ht & Hk & _).
  exists sent. split; [exact Hw|]. split; [exact Ht|].
  rewrite (Hk (lit "fontSize") eq_refl). reflexivity.
Defined.

(** X19. When the [display_preferences] of the signed-in user is absent,
    not a string or empty, or is a text that does not parse, a click sends
    the new theme of the store together with the font size [medium]
    (lines 53 and 62 to 64), whatever font size the store holds.
    [console.error] is called with the parse message exactly when there
    was a text to parse. *)
Theorem toggle_unusable_preferences_replaced c w u :
  current_user w = Some u ->
  (ThemeToggle.nonempty_string (lookup (lit "display_preferences") (fields u)) = None
   \/ exists text e,
        ThemeToggle.nonempty_string (lookup (lit "display_preferences") (fields u)) =
          Some text
        /\ JSON_parse text = Abrupt e) ->
  let final := ThemeToggle.toggle c w in
  remote_writes (trace (snd final)) =
  remote_writes (trace w)
  ++ [(user_id u,
       [(lit "display_preferences",
         VString (JSON_stringify
           (DisplaySettings.displayPreferences_of (theme (idb (snd final)))
              (VString (lit "medium")))))])]
  /\ (In (console_error "Error parsing display preferences:")
        (skipn (List.length (trace w)) (trace (snd final)))
      <-> ThemeToggle.nonempty_string
            (lookup (lit "display_preferences") (fields u)) <> None).
Proof.
  intros Hu Hbad final. unfold final.
  rewrite toggle_idb, toggle_trace, Hu. cbn [with_theme theme].
  destruct (@toggled_preferences_unusable (flip (theme (idb w))) _ Hbad) as [Hs Hc].
  unfold toggle_data. rewrite Hs.
  split.
  - rewrite !remote_writes_app. cbn [remote_writes].
    destruct (toggle_caught _), (update_fails w); reflexivity.
  - rewrite skipn_app, skipn_all, Nat.sub_diag. cbn [skipn app].
    rewrite <- Hc.
    destruct (toggle_caught _); cbn [app]; split; try congruence.
    + intros _. right. left. reflexivity.
    + intros [H|[H|H]]; try discriminate.
      destruct (update_fails w); [destruct H as [H|[]]; discriminate|destruct H].
Qed.

Lemma toggle_unusable_preferences_replaced_witness :
  let u := alice [(lit "display_preferences", VString (json_lit "{'fontSize':'large'"))] in
  let w := healthy (stored light large false false) u 0 [] in
  remote_writes (trace (snd (ThemeToggle.toggle
                               {| ThemeToggle.theme := light;
                                  ThemeToggle.isLoading := false |} w))) =
  [(lit "alice",
    [(lit "display_preferences",
      VString (json_lit "{'theme':'dark','fontSize':'medium'}"))])].
Proof.
  intros u w.
  refine (proj1 (@toggle_unusable_preferences_replaced
                   {| ThemeToggle.theme := light; ThemeToggle.isLoading := false |}
                   w u eq_refl _)).
  right. exists (json_lit "{'fontSize':'large'"), SyntaxError.
  split; reflexivity.
Defined.

(** X20. When the [display_preferences] of the signed-in user is a text
    that parses to [null], to a boolean or to a number, the spread of
    line 59 copies nothing and nothing is thrown: a click sends an object
    that has the new theme of the store and no font size, without a
    [console.error] for the field. *)
Theorem toggle_primitive_preferences_lose_fontSize c w u text v :
  current_user w = Some u ->
  ThemeToggle.nonempty_string (lookup (lit "display_preferences") (fields u)) =
    Some text ->
  JSON_parse text = Normal v ->
  primitive v = true ->
  let final := ThemeToggle.toggle c w in
  trace (snd final) =
  trace w
  ++ [themechange;
      updateFields_called USERS (user_id u)
        [(lit "display_preferences",
          VString (JSON_stringify
            (VObject [(lit "theme",
                       VString (theme_string (theme (idb (snd final)))))])))]]
  ++ (if update_fails w
      then [console_error "Error updating user preferences:"] else []).
Proof.
  intros Hu Hn Hp Hv final. unfold final.
  rewrite toggle_idb, toggle_trace, Hu. cbn [with_theme theme].
  unfold toggle_data, toggled_preferences, toggle_caught. rewrite Hn, Hp.
  destruct v; try discriminate; reflexivity.
Qed.

Lemma toggle_primitive_preferences_lose_fontSize_witness :
  let u := alice [(lit "display_preferences", VString (lit "null"))] in
  let w := healthy (stored dark large false false) u 0 [] in
  trace (snd (ThemeToggle.toggle
                {| ThemeToggle.theme := dark; ThemeToggle.isLoading := false |} w)) =
  [themechange;
   updateFields_called USERS (lit "alice")
     [(lit "display_preferences", VString (json_lit "{'theme':'light'}"))]].
Proof.
  intros u w.
  apply (@toggle_primitive_preferences_lose_fontSize
           {| ThemeToggle.theme := dark; ThemeToggle.isLoading := false |}
           w u (lit "null") VNull eq_refl eq_refl eq_refl eq_refl).
Defined.

(** X21. When the remote write of a click is rejected, the rejection is
    caught by the [catch] of line 75 and goes no further: the events end
    with the attempted write and one [console.error], before which the
    click added nothing but the theme-changed event and, at most, the
    [console.error] of the parse; there is no notification and the outer
    [catch] of line 79 does not run. The profile is as it was, and the
    flip is not taken back: the Local Preference Store and the toggle
    hold the new theme while the profile holds what it held. *)
Theorem toggle_rejected_remote_write c w u :
  current_user w = Some u ->
  update_fails w = true ->
  let final := ThemeToggle.toggle c w in
  theme (idb (snd final)) = flip (theme (idb w))
  /\ ThemeToggle.theme (fst final) = flip (theme (idb w))
  /\ ThemeToggle.isLoading (fst final) = false
  /\ current_user (snd final) = Some u
  /\ exists before data,
       trace (snd final) =
       trace w ++ before
       ++ [updateFields_called USERS (user_id u) data;
           console_error "Error updating user preferences:"]
       /\ Forall (fun e => e = themechange
                           \/ e = console_error "Error parsing display preferences:")
            before.
Proof.
  intros Hu Hf final. unfold final.
  rewrite toggle_cells, toggle_idb, toggle_trace, toggle_current_user, Hu, Hf.
  repeat split.
  exists (themechange ::
          (if toggle_caught (lookup (lit "display_preferences") (fields u))
           then [console_error "Error parsing display preferences:"] else [])).
  exists (toggle_data (flip (theme (idb w))) u).
  split; [reflexivity|].
  events; auto.
Qed.

Lemma toggle_rejected_remote_write_witness :
  let u := alice [] in
  let w := {| idb := stored dark small false false; current_user := Some u;
              put_fails := false; update_fails := true; clock := 0; trace := [] |} in
  let final := ThemeToggle.toggle
                 {| ThemeToggle.theme := dark; ThemeToggle.isLoading := false |} w in
  theme (idb (snd final)) = light /\ current_user (snd final) = Some u.
Proof.
  intros u w final.
  destruct (@toggle_rejected_remote_write
              {| ThemeToggle.theme := dark; ThemeToggle.isLoading := false |}
              w u eq_refl eq_refl) as (Ht & _ & _ & Hu & _).
  split; [exact Ht|exact Hu].
Defined.

(** X22. [loadTheme] (lines 16 to 24) makes the toggle show the theme of
    the Local Preference Store and changes nothing else. The label of the
    button (lines 91 and 92) then names the other theme, which is the
    theme the toggle shows after the next click; after that click the
    label names the theme shown before it. *)
Theorem label_names_next_theme c w :
  let shown := snd (ThemeToggle.loadTheme (c, w)) in
  snd shown = w
  /\ ThemeToggle.theme (fst shown) = theme (idb w)
  /\ ThemeToggle.isLoading (fst shown) = ThemeToggle.isLoading c
  /\ ThemeToggle.theme (fst (ThemeToggle.toggle (fst shown) w)) =
     ThemeToggle.announced (fst shown)
  /\ ThemeToggle.announced (fst (ThemeToggle.toggle (fst shown) w)) =
     ThemeToggle.theme (fst shown).
Proof.
  intros shown. unfold shown. rewrite loadTheme_run. cbn [fst snd].
  rewrite toggle_cells. unfold ThemeToggle.announced.
  cbn [ThemeToggle.theme ThemeToggle.isLoading].
  destruct (theme (idb w)); repeat split.
Qed.

End Clicking.


(* ===================================================================== *)
(** * The toggle and the settings form on the same stores                 *)
(* ===================================================================== *)

Module Composition.
Import JS ThemeService Runtime Observe DisplaySettings Summary themeUtils.
Import JSFacts HandlerFacts Reconciliation Saving RunFacts.


(** X24. A click by a signed-in user whose [display_preferences] cannot
    be used, with the remote write accepted, does not change the font
    size of the Local Preference Store, yet writes the font size [medium]
    to the profile. The settings form, loaded after that, accepts the
    field (it is not flagged), shows the theme of the store and shows
    [medium] as font size; when the store holds another font size, the
    form reports unsaved changes although the user changed nothing in
    it. *)
Theorem toggle_default_size_overrides_store c w u :
  current_user w = Some u ->
  update_fails w = false ->
  (ThemeToggle.nonempty_string (lookup (lit "display_preferences") (fields u)) = None
   \/ exists text e,
        ThemeToggle.nonempty_string (lookup (lit "display_preferences") (fields u)) =
          Some text
        /\ JSON_parse text = Abrupt e) ->
  let clicked := ThemeToggle.toggle c w in
  let reopened := mount (snd clicked) in
  ThemeService.fontSize (idb (snd clicked)) = ThemeService.fontSize (idb w)
  /\ fontSize (fst reopened) = VString (lit "medium")
  /\ theme (fst reopened) = ThemeService.theme (idb (snd clicked))
  /\ (ThemeService.fontSize (idb w) <> VString (lit "medium") ->
      hasChanges (fst reopened) = true)
  /\ exists u',
       current_user (snd clicked) = Some u'
       /\ needsDisplayPrefsUpdate (snd clicked) u' = false.
Proof.
  intros Hu Hf Hbad clicked reopened.
  set (t := flip (ThemeService.theme (idb w))).
  destruct (@toggled_preferences_unusable t _ Hbad) as [Hs _].
  set (u' := merge (toggle_data t u) u).
  assert (Hu' : current_user (snd clicked) = Some u').
  { unfold clicked. rewrite toggle_current_user, Hu, Hf. reflexivity. }
  assert (Hidb : idb (snd clicked) = with_theme t (idb w)).
  { unfold clicked. apply toggle_idb. }
  assert (Hd : lookup (lit "display_preferences") (fields u') =
               Some (VString (JSON_stringify
                       (displayPreferences_of t (VString (fontSize_string medium)))))).
  { unfold u'. rewrite lookup_merge_toggle_data, Hs. reflexivity. }
  assert (Hcells : theme (fst reopened) = t
                   /\ fontSize (fst reopened) = VString (fontSize_string medium)
                   /\ (ThemeService.fontSize (idb w) <> VString (fontSize_string medium) ->
                       hasChanges (fst reopened) = true)).
  { unfold reopened. rewrite (@mount_cells _ _ Hu'), Hd, Hidb.
    unfold reconciled, display_part. rewrite display_readable.
    cbn [theme fontSize hasChanges fst snd with_theme ThemeService.theme
         ThemeService.fontSize displayPreferences_of prop].
    change (lookup (lit "theme")
              [(lit "theme", VString (theme_string t));
               (lit "fontSize", VString (fontSize_string medium))])
      with (Some (VString (theme_string t))).
    change (lookup (lit "fontSize")
              [(lit "theme", VString (theme_string t));
               (lit "fontSize", VString (fontSize_string medium))])
      with (Some (VString (fontSize_string medium))).
    destruct (chosen_new_theme t t) as [T1 _].
    destruct (chosen_new_fontSize (ThemeService.fontSize (idb w)) medium) as [F1 F2].
    split; [exact T1|]. split; [exact F1|].
    intros Hne.
    destruct (new_fontSize (ThemeService.fontSize (idb w))
                (Some (VString (fontSize_string medium)))) eqn:E.
    - cbn [is_some]. now rewrite orb_true_r.
    - exfalso. apply Hne. now apply F2. }
  destruct Hcells as (Ht & Hfs & Hch).
  split; [now rewrite Hidb|]. split; [exact Hfs|].
  split; [rewrite Hidb; exact Ht|]. split; [exact Hch|].
  exists u'. split; [exact Hu'|].
  rewrite needsDisplayPrefsUpdate_flag, Hd. unfold display_flag.
  rewrite display_readable. now destruct t.
Qed.

Lemma toggle_default_size_overrides_store_witness :
  let w := healthy (stored dark extra_large false false) (alice []) 0 [] in
  let clicked := ThemeToggle.toggle
                   {| ThemeToggle.theme := dark; ThemeToggle.isLoading := false |} w in
  ThemeService.fontSize (idb (snd clicked)) = VString (lit "extra-large")
  /\ fontSize (fst (mount (snd clicked))) = VString (lit "medium")
  /\ hasChanges (fst (mount (snd clicked))) = true.
Proof.
  intros w clicked.
  destruct (@toggle_default_size_overrides_store
              {| ThemeToggle.theme := dark; ThemeToggle.isLoading := false |}
              w (alice []) eq_refl eq_refl (or_introl eq_refl))
    as (Hs & Hf & _ & Hc & _).
  split; [exact Hs|]. split; [exact Hf|]. apply Hc. discriminate.
Defined.

End Composition.
